(** * jira-mcp-server: the tool handlers of [JiraServer]

    A shallow embedding of the second (current) version of [JiraServer]:
    the rich-text reader [extractDescription], the mutating tools
    [createIssue], [updateIssue], [transitionIssue], and the derived query
    [getProjectIssues] with [searchIssues].

    Layout: JavaScript data first (strings as UTF-16 code units, JSON
    values, the few primitives the handlers use), then the remote tracker
    as typed requests, the handlers as request trees, and the theorems. *)

From Stdlib Require Import List NArith ZArith Bool Ascii String DecimalString Lia.
Import ListNotations.

Set Implicit Arguments.
#[local] Set Warnings "-register-all".

(* ------------------------------------------------------------------ *)
(** ** JavaScript strings *)

Module JsString.

(** A JavaScript string is a sequence of UTF-16 code units. *)
Definition jsstring := list N.

(** An ASCII literal of the source, as code units. *)
Definition js (s : string) : jsstring :=
  map N_of_ascii (list_ascii_of_string s).

Fixpoint eqb (a b : jsstring) : bool :=
  match a, b with
  | [], [] => true
  | x :: a', y :: b' => N.eqb x y && eqb a' b'
  | _, _ => false
  end.

(** The double quote, written as a code unit. *)
Definition dquote : jsstring := [34%N].

(** The line feed of the ['\n'] escapes. *)
Definition nl : jsstring := [10%N].

(** [Array.prototype.join] on strings. *)
Fixpoint join (sep : jsstring) (parts : list jsstring) : jsstring :=
  match parts with
  | [] => []
  | [p] => p
  | p :: rest => p ++ sep ++ join sep rest
  end.

(** Decimal rendering of an integer-valued number. *)
Definition decimal (n : Z) : jsstring :=
  js (NilZero.string_of_int (Z.to_int n)).

(** ECMAScript WhiteSpace and LineTerminator code points, the set that
    [String.prototype.trim] strips. *)
Definition isWhiteSpace (c : N) : bool :=
  existsb (N.eqb c)
    [ 9; 10; 11; 12; 13; 32; 160; 5760; 8232; 8233; 8239; 8287; 12288; 65279 ]%N
  || (8192 <=? c)%N && (c <=? 8202)%N.

Fixpoint trimStart (s : jsstring) : jsstring :=
  match s with
  | [] => []
  | c :: rest => if isWhiteSpace c then trimStart rest else s
  end.

Definition trimEnd (s : jsstring) : jsstring := rev (trimStart (rev s)).

Definition trim (s : jsstring) : jsstring := trimEnd (trimStart s).

(** Iterating a string yields its code points: a high surrogate followed
    by a low surrogate is one element. *)
Definition isHigh (c : N) : bool := (55296 <=? c)%N && (c <=? 56319)%N.
Definition isLow (c : N) : bool := (56320 <=? c)%N && (c <=? 57343)%N.

Fixpoint codePoints (s : jsstring) : list jsstring :=
  match s with
  | [] => []
  | c :: rest =>
      match rest with
      | d :: rest' =>
          if isHigh c && isLow d then [c; d] :: codePoints rest'
          else [c] :: codePoints rest
      | [] => [[c]]
      end
  end.

End JsString.
Import JsString.

(* ------------------------------------------------------------------ *)
(** ** Completions: a value or a thrown exception *)

(** What a handler can throw: an [Error] built by the handler itself, a
    [TypeError] or a [URIError] raised by the language, or the rejection
    of a request. *)
Inductive exn : Type :=
| Error (message : jsstring)
| TypeError
| URIError
| RequestFailed (message : jsstring).

Inductive completion (A : Type) : Type :=
| Normal (a : A)
| Abrupt (e : exn).
Arguments Normal {A} a.
Arguments Abrupt {A} e.

Definition cbind {A B} (c : completion A) (k : A -> completion B) : completion B :=
  match c with
  | Normal a => k a
  | Abrupt e => Abrupt e
  end.

Declare Scope completion_scope.
Delimit Scope completion_scope with completion.
Notation "x <- c ;; k" := (cbind c (fun x => k))
  (at level 61, c at next level, right associativity) : completion_scope.

(* ------------------------------------------------------------------ *)
(** ** URI encoding *)

Module Uri.

(** The characters that [encodeURIComponent] keeps: letters, digits and
    [- _ . ! ~ * ' ( )]. *)
Definition isUnreserved (c : N) : bool :=
  (65 <=? c)%N && (c <=? 90)%N
  || (97 <=? c)%N && (c <=? 122)%N
  || (48 <=? c)%N && (c <=? 57)%N
  || existsb (N.eqb c) [ 45; 95; 46; 33; 126; 42; 39; 40; 41 ]%N.

(** An upper-case hexadecimal digit. *)
Definition hexDigit (n : N) : N :=
  if (n <? 10)%N then (48 + n)%N else (55 + n)%N.

(** [%XX] for one octet. *)
Definition percent (octet : N) : jsstring :=
  [ 37%N; hexDigit (octet / 16)%N; hexDigit (octet mod 16)%N ].

(** The UTF-8 octets of a code point. *)
Definition utf8 (cp : N) : list N :=
  if (cp <? 128)%N then [ cp ]
  else if (cp <? 2048)%N then
    [ 192 + cp / 64; 128 + cp mod 64 ]%N
  else if (cp <? 65536)%N then
    [ 224 + cp / 4096; 128 + (cp / 64) mod 64; 128 + cp mod 64 ]%N
  else
    [ 240 + cp / 262144; 128 + (cp / 4096) mod 64; 128 + (cp / 64) mod 64;
      128 + cp mod 64 ]%N.

(** One element of [codePoints], which has one unit or a surrogate
    pair: a kept character, the escaped octets of a code point, or a
    [URIError] for a surrogate on its own. *)
Definition encodeCodePoint (units : jsstring) : completion jsstring :=
  match units with
  | [ c ] =>
      if isHigh c || isLow c then Abrupt URIError
      else if isUnreserved c then Normal [ c ]
      else Normal (flat_map percent (utf8 c))
  | [ high; low ] =>
      Normal (flat_map percent
                (utf8 ((high - 55296) * 1024 + (low - 56320) + 65536)%N))
  | _ => Normal []
  end.

Fixpoint encodeCodePoints (points : list jsstring) : completion jsstring :=
  match points with
  | [] => Normal []
  | units :: rest =>
      (escaped <- encodeCodePoint units ;;
       tail <- encodeCodePoints rest ;;
       Normal (escaped ++ tail))%completion
  end.

Definition encodeURIComponent (s : jsstring) : completion jsstring :=
  encodeCodePoints (codePoints s).

End Uri.
Import Uri.

(* ------------------------------------------------------------------ *)
(** ** JSON values *)

(** A number, by the two things the handlers can observe of one:
    whether it is falsy (zero or NaN) and how it prints. *)
Record number : Type := {
  isZeroOrNaN : bool;
  printed : jsstring
}.

(** The number 1 of the [version] fields. *)
Definition one : number := {| isZeroOrNaN := false; printed := js "1" |}.

(** The values that [JSON.parse] produces, and [undefined] for what is
    absent.  An object keeps its own properties in insertion order. *)
Inductive value : Type :=
| VUndefined
| VNull
| VBool (b : bool)
| VNum (n : number)
| VString (s : jsstring)
| VArray (items : list value)
| VObject (props : list (jsstring * value)).

Module Js.

(** ToBoolean. *)
Definition truthy (v : value) : bool :=
  match v with
  | VUndefined | VNull => false
  | VBool b => b
  | VNum n => negb (isZeroOrNaN n)
  | VString s => match s with [] => false | _ => true end
  | VArray _ | VObject _ => true
  end.

Fixpoint lookup (k : jsstring) (props : list (jsstring * value)) : option value :=
  match props with
  | [] => None
  | (k', v) :: rest => if eqb k k' then Some v else lookup k rest
  end.

(** [o.k = v]: overwrite an own property in place, or append a new one. *)
Fixpoint assign (k : jsstring) (v : value) (props : list (jsstring * value))
  : list (jsstring * value) :=
  match props with
  | [] => [(k, v)]
  | (k', v') :: rest =>
      if eqb k k' then (k, v) :: rest else (k', v') :: assign k v rest
  end.

(** [Object.keys]. *)
Definition keys (props : list (jsstring * value)) : list jsstring :=
  map fst props.

(** [v.k] for the property names the handlers read ([type], [content],
    [text]): no built-in prototype defines them, so they are own
    properties of an object or [undefined]; reading a property of
    [null] or [undefined] throws. *)
Definition get (v : value) (k : jsstring) : completion value :=
  match v with
  | VUndefined | VNull => Abrupt TypeError
  | VObject props =>
      match lookup k props with
      | Some x => Normal x
      | None => Normal VUndefined
      end
  | _ => Normal VUndefined
  end.

(** [v === 'literal']. *)
Definition isString (v : value) (lit : jsstring) : bool :=
  match v with
  | VString s => eqb s lit
  | _ => false
  end.

(** [Array.isArray]. *)
Definition isArray (v : value) : bool :=
  match v with
  | VArray _ => true
  | _ => false
  end.

(** [for (const x of v)]: arrays and strings are iterable, every other
    value makes the loop throw. *)
Definition iterate (v : value) : completion (list value) :=
  match v with
  | VArray items => Normal items
  | VString s => Normal (map VString (codePoints s))
  | _ => Abrupt TypeError
  end.

(** ToString, as [text += v] applies it.  A parsed object has no callable
    own property, so an own [toString] hides [Object.prototype.toString]
    and the conversion throws; [Array.prototype.join] renders [null] and
    [undefined] elements as the empty string. *)
Fixpoint toString (v : value) : completion jsstring :=
  match v with
  | VUndefined => Normal (js "undefined")
  | VNull => Normal (js "null")
  | VBool true => Normal (js "true")
  | VBool false => Normal (js "false")
  | VNum n => Normal (printed n)
  | VString s => Normal s
  | VArray items =>
      let fix elements (l : list value) : completion (list jsstring) :=
        match l with
        | [] => Normal []
        | x :: rest =>
            (s <- match x with
                  | VUndefined | VNull => Normal []
                  | _ => toString x
                  end ;;
             ss <- elements rest ;;
             Normal (s :: ss))%completion
        end in
      (ss <- elements items ;; Normal (join (js ",") ss))%completion
  | VObject props =>
      match lookup (js "toString") props with
      | Some _ => Abrupt TypeError
      | None => Normal (js "[object Object]")
      end
  end.

End Js.
Import Js.

Local Open Scope completion_scope.

(* ------------------------------------------------------------------ *)
(** ** The rich-text codec *)

Definition noDescription : jsstring := js "No description".

(** The inner loop of [extractDescription]:
    [for (const textContent of content.content)
       if (textContent.type === 'text') text += textContent.text;] *)
Fixpoint appendTexts (nodes : list value) (text : jsstring) : completion jsstring :=
  match nodes with
  | [] => Normal text
  | textContent :: rest =>
      ty <- get textContent (js "type") ;;
      if isString ty (js "text") then
        t <- get textContent (js "text") ;;
        s <- toString t ;;
        appendTexts rest (text ++ s)
      else appendTexts rest text
  end.

(** [node.type === kind && node.content], with its short circuit. *)
Definition hasContent (node : value) (kind : jsstring) : completion bool :=
  ty <- get node (js "type") ;;
  if isString ty kind then
    c <- get node (js "content") ;;
    Normal (truthy c)
  else Normal false.

(** The outer loop: every paragraph with a truthy [content] contributes
    its text nodes and a line feed. *)
Fixpoint appendParagraphs (nodes : list value) (text : jsstring) : completion jsstring :=
  match nodes with
  | [] => Normal text
  | content :: rest =>
      paragraph <- hasContent content (js "paragraph") ;;
      if paragraph then
        inner <- get content (js "content") ;;
        children <- iterate inner ;;
        text' <- appendTexts children text ;;
        appendParagraphs rest (text' ++ nl)
      else appendParagraphs rest text
  end.

Definition extractDescription (description : value) : completion jsstring :=
  if negb (truthy description) then Normal noDescription
  else
    doc <- hasContent description (js "doc") ;;
    if doc then
      content <- get description (js "content") ;;
      nodes <- iterate content ;;
      text <- appendParagraphs nodes [] ;;
      match trim text with
      | [] => Normal noDescription
      | trimmed => Normal trimmed
      end
    else
      match description with
      | VString s => Normal s
      | _ => Normal noDescription
      end.

(** The object literal that [createIssue], [updateIssue] and [addComment]
    build around a text: one [doc] holding one [paragraph] holding one
    [text] node. *)
Definition adfDocument (text : jsstring) : value :=
  VObject
    [ (js "type", VString (js "doc"));
      (js "version", VNum one);
      (js "content",
        VArray
          [ VObject
              [ (js "type", VString (js "paragraph"));
                (js "content",
                  VArray
                    [ VObject
                        [ (js "type", VString (js "text"));
                          (js "text", VString text) ] ]) ] ]) ].

(* ------------------------------------------------------------------ *)
(** ** The tracker's REST API *)

(** One entry of a priority field's [allowedValues]. *)
Record priorityValue : Type := {
  priorityName : jsstring;
  priorityId : value
}.

(** [issueTypeObj.fields.priority], when the type declares the field. *)
Record priorityField : Type := {
  allowedValues : option (list priorityValue)
}.

(** One entry of [projectMeta.issuetypes]. *)
Record issueTypeMeta : Type := {
  typeName : jsstring;
  typeId : value;
  fieldsPriority : option priorityField
}.

Record projectMeta : Type := {
  issuetypes : list issueTypeMeta
}.

(** One entry of [transitionsResponse.data.transitions]; [toName] is
    [t.to.name]. *)
Record transition : Type := {
  transitionId : value;
  transitionName : jsstring;
  toName : jsstring
}.

(** One entry of [response.data.issues], with the fields [searchIssues]
    projects; [assigneeName] is [fields.assignee?.displayName] and
    [issuePriority] is [fields.priority?.name]. *)
Record issue : Type := {
  issueKeyOf : jsstring;
  issueSummary : jsstring;
  issueStatus : jsstring;
  assigneeName : option jsstring;
  issuePriority : option jsstring
}.

(** The calls that the handlers make through [makeJiraRequest], indexed
    by the part of [response.data] that the caller reads.
    - [GetProject p]: GET /project/p
    - [GetCreateMeta p]:
        GET /issue/createmeta?projectKeys=p&expand=projects.issuetypes.fields;
        the answer is [data.projects]
    - [PostIssue d]: POST /issue with body d; the answer is [data.key]
    - [PutIssue k d]: PUT /issue/k with body d
    - [GetTransitions k]: GET /issue/k/transitions; [data.transitions]
    - [PostTransition k d]: POST /issue/k/transitions with body d
    - [GetSearch q n]: GET /search?jql=q&maxResults=n&fields=..., where
        q is the query as [encodeURIComponent] left it; [data.issues] *)
Inductive request : Type -> Type :=
| GetProject (project : jsstring) : request unit
| GetCreateMeta (project : jsstring) : request (list projectMeta)
| PostIssue (issueData : value) : request jsstring
| PutIssue (issueKey : jsstring) (updateData : value) : request unit
| GetTransitions (issueKey : jsstring) : request (list transition)
| PostTransition (issueKey : jsstring) (body : value) : request unit
| GetSearch (query : jsstring) (maxResults : Z) : request (list issue).

Inductive httpMethod : Type := GET | POST | PUT.

Definition methodOf {X} (r : request X) : httpMethod :=
  match r with
  | GetProject _ | GetCreateMeta _ | GetTransitions _ | GetSearch _ _ => GET
  | PostIssue _ | PostTransition _ _ => POST
  | PutIssue _ _ => PUT
  end.

(** A request that left the process. *)
Inductive sent : Type :=
| Sent (X : Type) (r : request X).
Arguments Sent {X} r.

Definition isWrite (c : sent) : bool :=
  match c with
  | Sent r => match methodOf r with GET => false | _ => true end
  end.

(** An asynchronous handler: it returns, throws, or awaits a request and
    goes on with the outcome. *)
Inductive prog (A : Type) : Type :=
| Ret (a : A)
| Throw (e : exn)
| Call (X : Type) (r : request X) (k : completion X -> prog A).
Arguments Ret {A} a.
Arguments Throw {A} e.
Arguments Call {A X} r k.

Fixpoint pbind {A B} (p : prog A) (f : A -> prog B) : prog B :=
  match p with
  | Ret a => f a
  | Throw e => Throw e
  | Call r k => Call r (fun c => pbind (k c) f)
  end.

(** [try { p } catch (error) { h error }]. *)
Fixpoint tryCatch {A} (p : prog A) (h : exn -> prog A) : prog A :=
  match p with
  | Ret a => Ret a
  | Throw e => h e
  | Call r k => Call r (fun c => tryCatch (k c) h)
  end.

Declare Scope prog_scope.
Delimit Scope prog_scope with prog.
Notation "x <- c ;; k" := (pbind c (fun x => k))
  (at level 61, c at next level, right associativity) : prog_scope.

(** A synchronous step that may throw. *)
Definition evaluate {A} (c : completion A) : prog A :=
  match c with
  | Normal a => Ret a
  | Abrupt e => Throw e
  end.

(** [makeJiraRequest]: the awaited answer is returned, a rejection is
    thrown again unchanged. *)
Definition makeJiraRequest {X} (r : request X) : prog X :=
  Call r (fun c => match c with
                   | Normal x => Ret x
                   | Abrupt error => Throw error
                   end).

(** Running a handler against a tracker: the requests sent, in order,
    the outcome, and the tracker's state afterwards. *)
Section Run.
Variable World : Type.
Variable remote : forall X, request X -> World -> completion X * World.

Fixpoint run {A} (p : prog A) (w : World) : list sent * completion A * World :=
  match p with
  | Ret a => ([], Normal a, w)
  | Throw e => ([], Abrupt e, w)
  | Call r k =>
      let (c, w') := remote r w in
      let '(calls, outcome, w'') := run (k c) w' in
      (Sent r :: calls, outcome, w'')
  end.
End Run.

(* ------------------------------------------------------------------ *)
(** ** Tool arguments *)

(** An optional string argument as the value the handler sees. *)
Definition optString (o : option jsstring) : value :=
  match o with
  | Some s => VString s
  | None => VUndefined
  end.

(** A destructuring default: it applies when the argument is absent. *)
Definition orDefault {A} (o : option A) (d : A) : A :=
  match o with
  | Some a => a
  | None => d
  end.

Module CreateArgs.
Record t : Type := {
  project : jsstring;
  summary : jsstring;
  description : option jsstring;
  issueType : option jsstring;
  priority : option jsstring;
  assignee : option jsstring;
  labels : value
}.
End CreateArgs.

Module UpdateArgs.
Record t : Type := {
  issueKey : jsstring;
  summary : option jsstring;
  description : option jsstring;
  assignee : option jsstring;
  priority : option jsstring;
  labels : value
}.
End UpdateArgs.

Module TransitionArgs.
Record t : Type := {
  issueKey : jsstring;
  status : jsstring
}.
End TransitionArgs.

Module SearchArgs.
Record t : Type := {
  jql : jsstring;
  maxResults : option Z
}.
End SearchArgs.

Module ProjectIssuesArgs.
Record t : Type := {
  projectKey : jsstring;
  maxResults : option Z;
  status : option jsstring
}.
End ProjectIssuesArgs.

(** [this.jiraConfig]. *)
Record jiraConfigT : Type := {
  url : jsstring;
  username : jsstring;
  apiToken : jsstring;
  defaultProject : jsstring
}.

(** The result envelope [{ content: [{ type: 'text', text }] }]. *)
Definition textResult (text : jsstring) : value :=
  VObject
    [ (js "content",
        VArray [ VObject [ (js "type", VString (js "text"));
                           (js "text", VString text) ] ]) ].

(** The check mark U+2705 that opens the success texts. *)
Definition checkMark : jsstring := [9989%N].

(** The default issue type, U+C791 U+C5C5. *)
Definition defaultIssueType : jsstring := [51089%N; 50629%N].

(* ------------------------------------------------------------------ *)
(** ** The handlers *)

Section Handlers.

(** [String.prototype.toLowerCase], left to the runtime. *)
Variable toLowerCase : jsstring -> jsstring.
Variable jiraConfig : jiraConfigT.

Local Open Scope prog_scope.

(** [name.toLowerCase() === wanted.toLowerCase()]. *)
Definition sameName (name wanted : jsstring) : bool :=
  eqb (toLowerCase name) (toLowerCase wanted).

(** The body [issueData.fields] that [createIssue] assembles once the
    issue type is resolved. *)
Definition createFields (project summary description priority : jsstring)
    (assignee : option jsstring) (labels : value)
    (issueTypeObj : issueTypeMeta) : list (jsstring * value) :=
  let fields :=
    [ (js "project", VObject [ (js "key", VString project) ]);
      (js "summary", VString summary);
      (js "issuetype", VObject [ (js "id", typeId issueTypeObj) ]) ] in
  let fields :=
    if truthy (VString description)
    then assign (js "description") (adfDocument description) fields
    else fields in
  let fields :=
    match fieldsPriority issueTypeObj with
    | Some priorityField =>
        if truthy (VString priority) then
          let allowedPriorities := orDefault (allowedValues priorityField) [] in
          match find (fun p => sameName (priorityName p) priority) allowedPriorities with
          | Some priorityObj =>
              assign (js "priority") (VObject [ (js "id", priorityId priorityObj) ]) fields
          | None => fields
          end
        else fields
    | None => fields
    end in
  let fields :=
    if truthy (optString assignee)
    then assign (js "assignee")
           (VObject [ (js "emailAddress", optString assignee) ]) fields
    else fields in
  let fields :=
    if truthy labels && isArray labels
    then assign (js "labels") labels fields
    else fields in
  fields.

Definition createdText (issueKey summary issueType priority project : jsstring)
  : jsstring :=
  checkMark ++ js " Successfully created issue: **" ++ issueKey ++ js "**" ++ nl ++
  js "Summary: " ++ summary ++ nl ++
  js "Type: " ++ issueType ++ nl ++
  js "Priority: " ++ priority ++ nl ++
  js "Project: " ++ project ++ nl ++
  js "URL: " ++ (url jiraConfig ++ js "/browse/" ++ issueKey).

Definition createIssue (args : CreateArgs.t) : prog value :=
  let project := CreateArgs.project args in
  let summary := CreateArgs.summary args in
  let description := orDefault (CreateArgs.description args) [] in
  let issueType := orDefault (CreateArgs.issueType args) defaultIssueType in
  let priority := orDefault (CreateArgs.priority args) (js "Medium") in
  let assignee := CreateArgs.assignee args in
  let labels := CreateArgs.labels args in
  _ <- tryCatch (makeJiraRequest (GetProject project))
         (fun error =>
            Throw (Error (js "Project " ++ project ++
                          js " not found or not accessible"))) ;;
  projects <- makeJiraRequest (GetCreateMeta project) ;;
  match nth_error projects 0 with
  | None =>
      Throw (Error (js "Unable to get metadata for project " ++ project))
  | Some projectMeta =>
      match find (fun type => sameName (typeName type) issueType)
              (issuetypes projectMeta) with
      | None =>
          let availableTypes :=
            join (js ", ") (map typeName (issuetypes projectMeta)) in
          Throw (Error (js "Issue type " ++ dquote ++ issueType ++ dquote ++
                        js " not found. Available types: " ++ availableTypes))
      | Some issueTypeObj =>
          let issueData :=
            VObject
              [ (js "fields",
                  VObject (createFields project summary description priority
                             assignee labels issueTypeObj)) ] in
          issueKey <- makeJiraRequest (PostIssue issueData) ;;
          Ret (textResult (createdText issueKey summary issueType priority project))
      end
  end.

(** The locals of [createIssue] after destructuring, as functions of
    the arguments. *)
Definition requestedType (args : CreateArgs.t) : jsstring :=
  orDefault (CreateArgs.issueType args) defaultIssueType.

Definition requestedPriority (args : CreateArgs.t) : jsstring :=
  orDefault (CreateArgs.priority args) (js "Medium").

Definition issueFields (args : CreateArgs.t) (issueTypeObj : issueTypeMeta)
  : list (jsstring * value) :=
  createFields (CreateArgs.project args) (CreateArgs.summary args)
    (orDefault (CreateArgs.description args) []) (requestedPriority args)
    (CreateArgs.assignee args) (CreateArgs.labels args) issueTypeObj.

(** The body [updateData.fields] that [updateIssue] assembles. *)
Definition updateFields (args : UpdateArgs.t) : list (jsstring * value) :=
  let summary := optString (UpdateArgs.summary args) in
  let description := optString (UpdateArgs.description args) in
  let assignee := optString (UpdateArgs.assignee args) in
  let priority := optString (UpdateArgs.priority args) in
  let labels := UpdateArgs.labels args in
  let fields := [] in
  let fields :=
    if truthy summary then assign (js "summary") summary fields else fields in
  let fields :=
    if truthy description
    then assign (js "description")
           (adfDocument (orDefault (UpdateArgs.description args) [])) fields
    else fields in
  let fields :=
    if truthy assignee
    then assign (js "assignee") (VObject [ (js "emailAddress", assignee) ]) fields
    else fields in
  let fields :=
    if truthy priority
    then assign (js "priority") (VObject [ (js "name", priority) ]) fields
    else fields in
  let fields :=
    if truthy labels && isArray labels
    then assign (js "labels") labels fields
    else fields in
  fields.

Definition updatedText (issueKey : jsstring) : jsstring :=
  checkMark ++ js " Successfully updated issue: **" ++ issueKey ++ js "**" ++ nl ++
  js "URL: " ++ url jiraConfig ++ js "/browse/" ++ issueKey.

Definition updateIssue (args : UpdateArgs.t) : prog value :=
  let issueKey := UpdateArgs.issueKey args in
  let updateData := VObject [ (js "fields", VObject (updateFields args)) ] in
  _ <- (if (0 <? List.length (keys (updateFields args)))%nat
        then makeJiraRequest (PutIssue issueKey updateData)
        else Ret tt) ;;
  Ret (textResult (updatedText issueKey)).

Definition transitionedText (issueKey status : jsstring) : jsstring :=
  checkMark ++ js " Successfully transitioned issue **" ++ issueKey ++
  js "** to **" ++ status ++ js "**" ++ nl ++
  js "URL: " ++ url jiraConfig ++ js "/browse/" ++ issueKey.

Definition transitionIssue (args : TransitionArgs.t) : prog value :=
  let issueKey := TransitionArgs.issueKey args in
  let status := TransitionArgs.status args in
  transitions <- makeJiraRequest (GetTransitions issueKey) ;;
  match find (fun t => sameName (toName t) status) transitions with
  | None =>
      let availableStatuses := join (js ", ") (map toName transitions) in
      Throw (Error (js "Status " ++ dquote ++ status ++ dquote ++
                    js " not available. Available statuses: " ++
                    availableStatuses))
  | Some transition =>
      _ <- makeJiraRequest
             (PostTransition issueKey
                (VObject [ (js "transition",
                             VObject [ (js "id", transitionId transition) ]) ])) ;;
      Ret (textResult (transitionedText issueKey status))
  end.

(** [x || fallback] on an optional string. *)
Definition orElse (o : option jsstring) (fallback : jsstring) : jsstring :=
  match o with
  | Some (c :: s) => c :: s
  | _ => fallback
  end.

Definition issueText (i : issue) : jsstring :=
  js "**" ++ issueKeyOf i ++ js "**: " ++ issueSummary i ++ nl ++
  js "Status: " ++ issueStatus i ++
  js " | Assignee: " ++ orElse (assigneeName i) (js "Unassigned") ++
  js " | Priority: " ++ orElse (issuePriority i) (js "None") ++ nl ++
  js "URL: " ++ (url jiraConfig ++ js "/browse/" ++ issueKeyOf i) ++ nl.

Definition searchIssues (args : SearchArgs.t) : prog value :=
  let jql := SearchArgs.jql args in
  let maxResults := orDefault (SearchArgs.maxResults args) 50%Z in
  query <- evaluate (encodeURIComponent jql) ;;
  issues <- makeJiraRequest (GetSearch query maxResults) ;;
  Ret (textResult
         (js "Found " ++ decimal (Z.of_nat (List.length issues)) ++ js " issues:" ++
          nl ++ nl ++ join nl (map issueText issues))).

(** The query string that [getProjectIssues] synthesizes. *)
Definition projectJql (projectKey : jsstring) (status : option jsstring) : jsstring :=
  let jql := js "project = " ++ projectKey in
  let jql :=
    if truthy (optString status)
    then jql ++ (js " AND status = " ++ dquote ++ orDefault status [] ++ dquote)
    else jql in
  jql ++ js " ORDER BY created DESC".

Definition getProjectIssues (args : ProjectIssuesArgs.t) : prog value :=
  let projectKey := ProjectIssuesArgs.projectKey args in
  let maxResults := orDefault (ProjectIssuesArgs.maxResults args) 50%Z in
  let status := ProjectIssuesArgs.status args in
  searchIssues
    {| SearchArgs.jql := projectJql projectKey status;
       SearchArgs.maxResults := Some maxResults |}.

End Handlers.

(* ------------------------------------------------------------------ *)
(** ** A concrete runtime and tracker, for running the handlers *)

Module Demo.

(** Lower-casing of the ASCII letters, every other code unit kept. *)
Definition lowerAscii (s : jsstring) : jsstring :=
  map (fun c => if (65 <=? c)%N && (c <=? 90)%N then (c + 32)%N else c) s.

Definition config : jiraConfigT :=
  {| url := js "https://jira.example.com";
     username := js "bot@example.com";
     apiToken := js "token";
     defaultProject := js "PROJ" |}.

Definition task : issueTypeMeta :=
  {| typeName := js "Task"; typeId := VString (js "10001");
     fieldsPriority :=
       Some {| allowedValues :=
                 Some [ {| priorityName := js "High"; priorityId := VString (js "2") |};
                        {| priorityName := js "Medium"; priorityId := VString (js "3") |} ] |} |}.

Definition bug : issueTypeMeta :=
  {| typeName := js "Bug"; typeId := VString (js "10004");
     fieldsPriority := None |}.

Definition types : list issueTypeMeta := [ task; bug ].

Definition transitions : list transition :=
  [ {| transitionId := VString (js "11"); transitionName := js "Start";
       toName := js "In Progress" |};
    {| transitionId := VString (js "31"); transitionName := js "Resolve";
       toName := js "Done" |};
    {| transitionId := VString (js "41"); transitionName := js "Close";
       toName := js "DONE" |} ].

(** A tracker that knows one project; its state counts the issues
    created so far. *)
Definition tracker (X : Type) (r : request X) (created : nat)
  : completion X * nat :=
  match r in request X return completion X * nat with
  | GetProject _ => (Normal tt, created)
  | GetCreateMeta _ => (Normal [ {| issuetypes := types |} ], created)
  | PostIssue _ =>
      (Normal (js "PROJ-" ++ decimal (Z.of_nat (S created))), S created)
  | PutIssue _ _ => (Normal tt, created)
  | GetTransitions _ => (Normal transitions, created)
  | PostTransition _ _ => (Normal tt, created)
  | GetSearch _ _ => (Normal [], created)
  end.

(** A call that asks for a priority the Task type does not allow. *)
Definition urgentArgs : CreateArgs.t :=
  {| CreateArgs.project := js "PROJ";
     CreateArgs.summary := js "Write docs";
     CreateArgs.description := None;
     CreateArgs.issueType := Some (js "task");
     CreateArgs.priority := Some (js "Urgent");
     CreateArgs.assignee := None;
     CreateArgs.labels := VUndefined |}.

(** An update that names the issue and nothing else, and one that
    raises the priority. *)
Definition keyOnlyArgs : UpdateArgs.t :=
  {| UpdateArgs.issueKey := js "PROJ-7";
     UpdateArgs.summary := None;
     UpdateArgs.description := None;
     UpdateArgs.assignee := None;
     UpdateArgs.priority := None;
     UpdateArgs.labels := VUndefined |}.

Definition raiseArgs : UpdateArgs.t :=
  {| UpdateArgs.issueKey := js "PROJ-7";
     UpdateArgs.summary := None;
     UpdateArgs.description := None;
     UpdateArgs.assignee := None;
     UpdateArgs.priority := Some (js "High");
     UpdateArgs.labels := VUndefined |}.

End Demo.

(* ------------------------------------------------------------------ *)
(** ** Shapes of rich-text input *)

Module Shape.

(** A document node that carries content: an object whose [type] is
    ['doc'] and whose [content] is truthy. *)
Definition isDocument (v : value) : bool :=
  match v with
  | VObject props =>
      match lookup (js "type") props, lookup (js "content") props with
      | Some ty, Some content => isString ty (js "doc") && truthy content
      | _, _ => false
      end
  | _ => false
  end.

(** A paragraph node that carries content. *)
Definition isParagraph (v : value) : bool :=
  match v with
  | VObject props =>
      match lookup (js "type") props, lookup (js "content") props with
      | Some ty, Some content => isString ty (js "paragraph") && truthy content
      | _, _ => false
      end
  | _ => false
  end.

Definition isNullish (v : value) : bool :=
  match v with
  | VUndefined | VNull => true
  | _ => false
  end.

(** An inline node: an object whose [text], when present, is a string. *)
Definition inlineOk (v : value) : bool :=
  match v with
  | VObject props =>
      match lookup (js "text") props with
      | Some (VString _) | None => true
      | Some _ => false
      end
  | _ => false
  end.

(** A block node: an object; when it is a paragraph with content, the
    content is an array of inline nodes. *)
Definition blockOk (v : value) : bool :=
  match v with
  | VObject props =>
      if isParagraph v then
        match lookup (js "content") props with
        | Some (VArray children) => forallb inlineOk children
        | _ => false
        end
      else true
  | _ => false
  end.

(** A document whose [content] is an array of block nodes. *)
Definition wellFormed (v : value) : bool :=
  match v with
  | VObject props =>
      match lookup (js "content") props with
      | Some (VArray nodes) => isDocument v && forallb blockOk nodes
      | _ => false
      end
  | _ => false
  end.

(** What [for ... of] accepts: an array or a string. *)
Definition isIterable (v : value) : bool :=
  match v with
  | VArray _ | VString _ => true
  | _ => false
  end.

(** The text that an inline node stands for: the [text] of a text
    node, "undefined" when it has none, nothing for any other node. *)
Definition inlineText (v : value) : jsstring :=
  match v with
  | VObject props =>
      match lookup (js "type") props with
      | Some ty =>
          if isString ty (js "text") then
            match lookup (js "text") props with
            | Some (VString s) => s
            | _ => js "undefined"
            end
          else []
      | None => []
      end
  | _ => []
  end.

(** The text that a block stands for: the texts of a paragraph's inline
    nodes and a line feed; nothing for any other block. *)
Definition blockText (v : value) : jsstring :=
  match v with
  | VObject props =>
      if isParagraph v then
        match lookup (js "content") props with
        | Some (VArray children) => List.concat (map inlineText children) ++ nl
        | _ => []
        end
      else []
  | _ => []
  end.

(** The text of a list of blocks, before trimming. *)
Definition plainText (nodes : list value) : jsstring :=
  List.concat (map blockText nodes).

(** A document whose only child is [null]. *)
Definition nullChildDocument : value :=
  VObject [ (js "type", VString (js "doc"));
            (js "content", VArray [ VNull ]) ].

End Shape.

(* ------------------------------------------------------------------ *)
(** ** Outcomes of runs, and the scenario of the specification *)

(** The outcome of a handler that ends with one awaited request. *)
Definition settle {X A} (answer : completion X) (f : X -> A) : completion A :=
  match answer with
  | Normal x => Normal (f x)
  | Abrupt e => Abrupt e
  end.

(** One more request in front of a run. *)
Definition after {A World} (c : sent) (rest : list sent * completion A * World)
  : list sent * completion A * World :=
  let '(calls, outcome, w) := rest in (c :: calls, outcome, w).

Module Scenario.

(** [create_issue({project:"PROJ", summary:"Fix login bug", issueType:"Bug"})]. *)
Definition bugArgs : CreateArgs.t :=
  {| CreateArgs.project := js "PROJ";
     CreateArgs.summary := js "Fix login bug";
     CreateArgs.description := None;
     CreateArgs.issueType := Some (js "Bug");
     CreateArgs.priority := None;
     CreateArgs.assignee := None;
     CreateArgs.labels := VUndefined |}.

(** [{project:{key:"PROJ"}, summary:"Fix login bug", issuetype:{id:"10004"}}]. *)
Definition bugFields : list (jsstring * value) :=
  [ (js "project", VObject [ (js "key", VString (js "PROJ")) ]);
    (js "summary", VString (js "Fix login bug"));
    (js "issuetype", VObject [ (js "id", VString (js "10004")) ]) ].

End Scenario.

(* ------------------------------------------------------------------ *)
(** ** The other tools: reads, comments and the dispatcher *)

Module IssueArgs.
Record t : Type := {
  issueKey : jsstring
}.
End IssueArgs.

Module CommentArgs.
Record t : Type := {
  issueKey : jsstring;
  comment : jsstring
}.
End CommentArgs.

Module ProjectArgs.
Record t : Type := {
  projectKey : jsstring
}.
End ProjectArgs.

(** [response.data] of GET /issue/KEY, with what [getIssue] reads:
    [detailDescription] is [fields.description] as parsed,
    [detailAssignee] is [fields.assignee?.displayName], [detailPriority]
    is [fields.priority?.name], [detailLabels] is [fields.labels]. *)
Record issueDetail : Type := {
  detailKey : jsstring;
  detailSummary : jsstring;
  detailDescription : value;
  detailStatus : jsstring;
  detailAssignee : option jsstring;
  detailPriority : option jsstring;
  detailType : jsstring;
  detailCreated : jsstring;
  detailUpdated : jsstring;
  detailLabels : option (list jsstring)
}.

(** [response.data] of GET /project/KEY, with what [getProjectInfo]
    reads; [recordLead] is [lead?.displayName]. *)
Record projectRecord : Type := {
  recordName : jsstring;
  recordKey : jsstring;
  recordDescription : option jsstring;
  recordLead : option jsstring;
  recordTypeKey : jsstring
}.

(** All the calls of the server: those above, and
    - [GetIssue k]: GET /issue/k
    - [GetProjectRecord p]: GET /project/p, read for its data
    - [PostComment k d]: POST /issue/k/comment with body d *)
Inductive call : Type -> Type :=
| Core (X : Type) (r : request X) : call X
| GetIssue (issueKey : jsstring) : call issueDetail
| GetProjectRecord (projectKey : jsstring) : call projectRecord
| PostComment (issueKey : jsstring) (commentData : value) : call unit.
Arguments Core {X} r.

Definition methodOfCall {X} (c : call X) : httpMethod :=
  match c with
  | Core r => methodOf r
  | GetIssue _ | GetProjectRecord _ => GET
  | PostComment _ _ => POST
  end.

Inductive placed : Type :=
| Placed (X : Type) (c : call X).
Arguments Placed {X} c.

Definition isWriteCall (p : placed) : bool :=
  match p with
  | Placed c => match methodOfCall c with GET => false | _ => true end
  end.

(** A handler over all the calls. *)
Inductive task (A : Type) : Type :=
| Done (a : A)
| Fail (e : exn)
| Await (X : Type) (c : call X) (k : completion X -> task A).
Arguments Done {A} a.
Arguments Fail {A} e.
Arguments Await {A X} c k.

Fixpoint tbind {A B} (t : task A) (f : A -> task B) : task B :=
  match t with
  | Done a => f a
  | Fail e => Fail e
  | Await c k => Await c (fun x => tbind (k x) f)
  end.

Declare Scope task_scope.
Delimit Scope task_scope with task.
Notation "x <- c ;; k" := (tbind c (fun x => k))
  (at level 61, c at next level, right associativity) : task_scope.

(** [await this.makeJiraRequest(...)] for any call. *)
Definition awaitCall {X} (c : call X) : task X :=
  Await c (fun x => match x with
                    | Normal a => Done a
                    | Abrupt error => Fail error
                    end).

(** A synchronous step that may throw. *)
Definition attempt {A} (c : completion A) : task A :=
  match c with
  | Normal a => Done a
  | Abrupt e => Fail e
  end.

(** A handler of the first group, among all the calls. *)
Fixpoint lift {A} (p : prog A) : task A :=
  match p with
  | Ret a => Done a
  | Throw e => Fail e
  | Call r k => Await (Core r) (fun x => lift (k x))
  end.

(** A request of the first group, as a call. *)
Definition coreCall (s : sent) : placed :=
  match s with
  | Sent r => Placed (Core r)
  end.

Section RunTask.
Variable World : Type.
Variable remote : forall X, call X -> World -> completion X * World.

Fixpoint runTask {A} (t : task A) (w : World) : list placed * completion A * World :=
  match t with
  | Done a => ([], Normal a, w)
  | Fail e => ([], Abrupt e, w)
  | Await c k =>
      let (x, w') := remote c w in
      let '(calls, outcome, w'') := runTask (k x) w' in
      (Placed c :: calls, outcome, w'')
  end.
End RunTask.

(** A tracker for all the calls, as the handlers of the first group
    see it. *)
Definition coreOf {World : Type}
    (remote : forall X, call X -> World -> completion X * World)
  : forall X, request X -> World -> completion X * World :=
  fun X r => remote X (Core r).

(** One more call in front of a run. *)
Definition afterCall {A World} (c : placed) (rest : list placed * completion A * World)
  : list placed * completion A * World :=
  let '(calls, outcome, w) := rest in (c :: calls, outcome, w).

(** The bullet U+2022 and the arrow U+2192 of the transition list. *)
Definition bullet : jsstring := [8226%N].
Definition arrow : jsstring := [8594%N].

(** [ErrorCode] and [McpError] of the protocol library, as the
    dispatcher uses them. *)
Inductive errorCode : Type := MethodNotFound | InternalError.

Record mcpError : Type := McpError {
  code : errorCode;
  reason : jsstring
}.

(** The names of the [switch] in the dispatcher, in its order. *)
Inductive tool : Type :=
| JiraSearch
| JiraGetIssue
| JiraCreateIssue
| JiraUpdateIssue
| JiraTransitionIssue
| JiraAddComment
| JiraGetProjectInfo
| JiraGetProjectIssues
| JiraGetTransitions.

Definition toolName (t : tool) : jsstring :=
  match t with
  | JiraSearch => js "jira_search"
  | JiraGetIssue => js "jira_get_issue"
  | JiraCreateIssue => js "jira_create_issue"
  | JiraUpdateIssue => js "jira_update_issue"
  | JiraTransitionIssue => js "jira_transition_issue"
  | JiraAddComment => js "jira_add_comment"
  | JiraGetProjectInfo => js "jira_get_project_info"
  | JiraGetProjectIssues => js "jira_get_project_issues"
  | JiraGetTransitions => js "jira_get_transitions"
  end.

Definition tools : list tool :=
  [ JiraSearch; JiraGetIssue; JiraCreateIssue; JiraUpdateIssue;
    JiraTransitionIssue; JiraAddComment; JiraGetProjectInfo;
    JiraGetProjectIssues; JiraGetTransitions ].

(** The [case] that a name selects, if any. *)
Definition toolNamed (name : jsstring) : option tool :=
  find (fun t => eqb name (toolName t)) tools.

(** How each handler destructures the arguments object. *)
Definition argsOf (t : tool) : Type :=
  match t with
  | JiraSearch => SearchArgs.t
  | JiraGetIssue => IssueArgs.t
  | JiraCreateIssue => CreateArgs.t
  | JiraUpdateIssue => UpdateArgs.t
  | JiraTransitionIssue => TransitionArgs.t
  | JiraAddComment => CommentArgs.t
  | JiraGetProjectInfo => ProjectArgs.t
  | JiraGetProjectIssues => ProjectIssuesArgs.t
  | JiraGetTransitions => IssueArgs.t
  end.

Section Tools.

Variable toLowerCase : jsstring -> jsstring.
Variable jiraConfig : jiraConfigT.

(** The [message] of an [McpError], which the protocol library derives
    from the code and the text given to the constructor. *)
Variable mcpErrorMessage : errorCode -> jsstring -> jsstring.

(** [error.response?.data?.errorMessages || error.message] of an error
    that no handler built: a rejected request or an error of the
    runtime. *)
Variable foreignErrorText : exn -> jsstring.

Local Open Scope task_scope.

(** [result.labels.join(', ') || 'None'] with [labels || []]. *)
Definition labelsText (labels : option (list jsstring)) : jsstring :=
  orElse (Some (join (js ", ") (orDefault labels []))) (js "None").

Definition issueDetailText (issue : issueDetail) (description : jsstring) : jsstring :=
  js "**" ++ detailKey issue ++ js "**: " ++ detailSummary issue ++ nl ++ nl ++
  js "**Description**: " ++ description ++ nl ++
  js "**Status**: " ++ detailStatus issue ++ nl ++
  js "**Assignee**: " ++ orElse (detailAssignee issue) (js "Unassigned") ++ nl ++
  js "**Priority**: " ++ orElse (detailPriority issue) (js "None") ++ nl ++
  js "**Type**: " ++ detailType issue ++ nl ++
  js "**Labels**: " ++ labelsText (detailLabels issue) ++ nl ++
  js "**Created**: " ++ detailCreated issue ++ nl ++
  js "**Updated**: " ++ detailUpdated issue ++ nl ++
  js "**URL**: " ++ (url jiraConfig ++ js "/browse/" ++ detailKey issue).

Definition getIssue (args : IssueArgs.t) : task value :=
  let issueKey := IssueArgs.issueKey args in
  issue <- awaitCall (GetIssue issueKey) ;;
  description <- attempt (extractDescription (detailDescription issue)) ;;
  Done (textResult (issueDetailText issue description)).

Definition commentedText (issueKey comment : jsstring) : jsstring :=
  checkMark ++ js " Successfully added comment to issue: **" ++ issueKey ++
  js "**" ++ nl ++
  js "Comment: " ++ comment ++ nl ++
  js "URL: " ++ url jiraConfig ++ js "/browse/" ++ issueKey.

Definition addComment (args : CommentArgs.t) : task value :=
  let issueKey := CommentArgs.issueKey args in
  let comment := CommentArgs.comment args in
  let commentData := VObject [ (js "body", adfDocument comment) ] in
  _ <- awaitCall (PostComment issueKey commentData) ;;
  Done (textResult (commentedText issueKey comment)).

Definition projectText (project : projectRecord) : jsstring :=
  js "**Project**: " ++ recordName project ++ js " (" ++ recordKey project ++
  js ")" ++ nl ++
  js "**Description**: " ++
  orElse (recordDescription project) (js "No description") ++ nl ++
  js "**Lead**: " ++ orElse (recordLead project) (js "No lead assigned") ++ nl ++
  js "**Project Type**: " ++ recordTypeKey project ++ nl ++
  js "**URL**: " ++ url jiraConfig ++ js "/projects/" ++ recordKey project.

Definition getProjectInfo (args : ProjectArgs.t) : task value :=
  let projectKey := ProjectArgs.projectKey args in
  project <- awaitCall (GetProjectRecord projectKey) ;;
  Done (textResult (projectText project)).

Definition transitionLine (t : transition) : jsstring :=
  bullet ++ js " **" ++ transitionName t ++ js "** " ++ arrow ++ js " " ++ toName t.

Definition getTransitions (args : IssueArgs.t) : prog value :=
  let issueKey := IssueArgs.issueKey args in
  (transitions <- makeJiraRequest (GetTransitions issueKey) ;;
   Ret (textResult
          (js "Available transitions for **" ++ issueKey ++ js "**:" ++ nl ++ nl ++
           join nl (map transitionLine transitions) ++
           (nl ++ nl ++ js "URL: " ++ url jiraConfig ++ js "/browse/" ++ issueKey))))%prog.

(** The [switch] of the dispatcher on a name it knows. *)
Definition handlerOf (t : tool) : argsOf t -> task value :=
  match t as t0 return argsOf t0 -> task value with
  | JiraSearch => fun args => lift (searchIssues jiraConfig args)
  | JiraGetIssue => fun args => getIssue args
  | JiraCreateIssue => fun args => lift (createIssue toLowerCase jiraConfig args)
  | JiraUpdateIssue => fun args => lift (updateIssue jiraConfig args)
  | JiraTransitionIssue =>
      fun args => lift (transitionIssue toLowerCase jiraConfig args)
  | JiraAddComment => fun args => addComment args
  | JiraGetProjectInfo => fun args => getProjectInfo args
  | JiraGetProjectIssues => fun args => lift (getProjectIssues jiraConfig args)
  | JiraGetTransitions => fun args => lift (getTransitions args)
  end.

(** What the [catch] of the dispatcher reads from what it caught. *)
Definition errorText (error : exn) : jsstring :=
  match error with
  | Error message => message
  | _ => foreignErrorText error
  end.

(** [new McpError(ErrorCode.InternalError, `Error executing ${name}: ...`)]. *)
Definition internalError (name detail : jsstring) : mcpError :=
  McpError InternalError (js "Error executing " ++ name ++ js ": " ++ detail).

(** The [try] block around a handler: its result is returned, what it
    throws is caught and thrown again as an internal error. *)
Fixpoint guarded {A} (name : jsstring) (t : task A) : task (mcpError + A) :=
  match t with
  | Done a => Done (inr a)
  | Fail e => Done (inl (internalError name (errorText e)))
  | Await c k => Await c (fun x => guarded name (k x))
  end.

(** The handler of a tool call.  [args] gives the arguments object as
    each handler destructures it; the result is what the call returns
    ([inr]) or the [McpError] it throws ([inl]).  The [default] branch
    throws inside the [try], so its error is caught like any other. *)
Definition callTool (name : jsstring) (args : forall t, argsOf t)
  : task (mcpError + value) :=
  match toolNamed name with
  | Some t => guarded name (handlerOf t (args t))
  | None =>
      Done (inl (internalError name
                   (mcpErrorMessage MethodNotFound (js "Unknown tool: " ++ name))))
  end.

End Tools.

(* ------------------------------------------------------------------ *)
(** ** The earlier server *)

(** The first revision of the server, with the tools [search_issues],
    [get_issue], [create_issue], [update_issue], [add_comment] and
    [get_project_info]; its [update_issue] also moves the issue to a
    status. *)
Module Legacy.

Module UpdateArgs.
Record t : Type := {
  issueKey : jsstring;
  summary : option jsstring;
  description : option jsstring;
  status : option jsstring;
  assignee : option jsstring
}.
End UpdateArgs.

Section Handlers.

Variable jiraConfig : jiraConfigT.

Local Open Scope prog_scope.

Definition updateFields (args : UpdateArgs.t) : list (jsstring * value) :=
  let summary := optString (UpdateArgs.summary args) in
  let description := optString (UpdateArgs.description args) in
  let assignee := optString (UpdateArgs.assignee args) in
  let fields := [] in
  let fields :=
    if truthy summary then assign (js "summary") summary fields else fields in
  let fields :=
    if truthy description
    then assign (js "description")
           (adfDocument (orDefault (UpdateArgs.description args) [])) fields
    else fields in
  let fields :=
    if truthy assignee
    then assign (js "assignee") (VObject [ (js "emailAddress", assignee) ]) fields
    else fields in
  fields.

Definition updatedText (issueKey : jsstring) : jsstring :=
  js "Successfully updated issue: **" ++ issueKey ++ js "**" ++ nl ++
  js "URL: " ++ url jiraConfig ++ js "/browse/" ++ issueKey.

(** The status step: the first transition whose destination name is
    exactly the status is posted; without one, nothing happens. *)
Definition moveTo (issueKey status : jsstring) : prog unit :=
  transitions <- makeJiraRequest (GetTransitions issueKey) ;;
  match find (fun t => eqb (toName t) status) transitions with
  | Some transition =>
      makeJiraRequest
        (PostTransition issueKey
           (VObject [ (js "transition",
                        VObject [ (js "id", transitionId transition) ]) ]))
  | None => Ret tt
  end.

(** The field step: one PUT when some field was placed. *)
Definition patch (args : UpdateArgs.t) : prog unit :=
  let issueKey := UpdateArgs.issueKey args in
  let updateData := VObject [ (js "fields", VObject (updateFields args)) ] in
  if (0 <? List.length (keys (updateFields args)))%nat
  then makeJiraRequest (PutIssue issueKey updateData)
  else Ret tt.

Definition updateIssue (args : UpdateArgs.t) : prog value :=
  let issueKey := UpdateArgs.issueKey args in
  let status := UpdateArgs.status args in
  _ <- patch args ;;
  _ <- (if truthy (optString status)
        then moveTo issueKey (orDefault status [])
        else Ret tt) ;;
  Ret (textResult (updatedText issueKey)).

End Handlers.

End Legacy.

(* ------------------------------------------------------------------ *)
(** ** Sample data for the other tools *)

Module Sample.

(** A document of text paragraphs: each paragraph holds one text node
    per string. *)
Definition textNode (text : jsstring) : value :=
  VObject [ (js "type", VString (js "text")); (js "text", VString text) ].

Definition paragraphOf (texts : list jsstring) : value :=
  VObject [ (js "type", VString (js "paragraph"));
            (js "content", VArray (map textNode texts)) ].

Definition documentOf (paragraphs : list (list jsstring)) : value :=
  VObject [ (js "type", VString (js "doc"));
            (js "version", VNum one);
            (js "content", VArray (map paragraphOf paragraphs)) ].

(** A document node around any blocks. *)
Definition docAround (nodes : list value) : value :=
  VObject [ (js "type", VString (js "doc")); (js "content", VArray nodes) ].

Definition heading : value :=
  VObject [ (js "type", VString (js "heading"));
            (js "content", VArray [ textNode (js "Steps") ]) ].

Definition issue7 : issueDetail :=
  {| detailKey := js "PROJ-7";
     detailSummary := js "Fix login bug";
     detailDescription := Shape.nullChildDocument;
     detailStatus := js "Open";
     detailAssignee := None;
     detailPriority := None;
     detailType := js "Bug";
     detailCreated := js "2024-01-01";
     detailUpdated := js "2024-01-02";
     detailLabels := None |}.

Definition project : projectRecord :=
  {| recordName := js "Project";
     recordKey := js "PROJ";
     recordDescription := None;
     recordLead := None;
     recordTypeKey := js "software" |}.

(** A tracker for all the calls, over the demo tracker. *)
Definition tracker (X : Type) (c : call X) (created : nat) : completion X * nat :=
  match c in call X return completion X * nat with
  | Core r => Demo.tracker r created
  | GetIssue _ => (Normal issue7, created)
  | GetProjectRecord _ => (Normal project, created)
  | PostComment _ _ => (Normal tt, created)
  end.

(** An issue without a description, and a tracker that holds it. *)
Definition issue8 : issueDetail :=
  {| detailKey := js "PROJ-8";
     detailSummary := js "Tidy up";
     detailDescription := VNull;
     detailStatus := js "Open";
     detailAssignee := None;
     detailPriority := Some (js "Low");
     detailType := js "Task";
     detailCreated := js "2024-02-01";
     detailUpdated := js "2024-02-02";
     detailLabels := Some [ js "chore"; js "small" ] |}.

Definition archive (X : Type) (c : call X) (created : nat) : completion X * nat :=
  match c in call X return completion X * nat with
  | Core r => Demo.tracker r created
  | GetIssue _ => (Normal issue8, created)
  | GetProjectRecord _ => (Normal project, created)
  | PostComment _ _ => (Normal tt, created)
  end.

(** A tracker that rejects every request. *)
Definition offline (X : Type) (r : request X) (w : unit) : completion X * unit :=
  (Abrupt (RequestFailed (js "Network Error")), w).

(** A tracker whose project has no creation metadata. *)
Definition bare (X : Type) (r : request X) (w : unit) : completion X * unit :=
  match r in request X return completion X * unit with
  | GetProject _ => (Normal tt, w)
  | GetCreateMeta _ => (Normal [], w)
  | PostIssue _ => (Normal (js "PROJ-1"), w)
  | PutIssue _ _ => (Normal tt, w)
  | GetTransitions _ => (Abrupt (RequestFailed (js "Network Error")), w)
  | PostTransition _ _ => (Normal tt, w)
  | GetSearch _ _ => (Normal [], w)
  end.

(** The SDK's message and the text of foreign errors, for running the
    dispatcher. *)
Definition mcpErrorMessage (c : errorCode) (text : jsstring) : jsstring :=
  js "MCP error " ++
  match c with
  | MethodNotFound => js "-32601"
  | InternalError => js "-32603"
  end ++ js ": " ++ text.

Definition foreignErrorText (e : exn) : jsstring :=
  match e with
  | Error message | RequestFailed message => message
  | TypeError => js "TypeError"
  | URIError => js "URI malformed"
  end.

(** Arguments objects, read the way each handler does. *)
Definition storyArgs : CreateArgs.t :=
  {| CreateArgs.project := js "PROJ";
     CreateArgs.summary := js "Write docs";
     CreateArgs.description := None;
     CreateArgs.issueType := Some (js "Story");
     CreateArgs.priority := Some (js "medium");
     CreateArgs.assignee := None;
     CreateArgs.labels := VString (js "docs") |}.

Definition argsFor (t : tool) : argsOf t :=
  match t as t0 return argsOf t0 with
  | JiraSearch => {| SearchArgs.jql := js "project = PROJ"; SearchArgs.maxResults := None |}
  | JiraGetIssue => {| IssueArgs.issueKey := js "PROJ-7" |}
  | JiraCreateIssue => storyArgs
  | JiraUpdateIssue => Demo.keyOnlyArgs
  | JiraTransitionIssue =>
      {| TransitionArgs.issueKey := js "PROJ-7"; TransitionArgs.status := js "done" |}
  | JiraAddComment =>
      {| CommentArgs.issueKey := js "PROJ-7"; CommentArgs.comment := js "Started" |}
  | JiraGetProjectInfo => {| ProjectArgs.projectKey := js "PROJ" |}
  | JiraGetProjectIssues =>
      {| ProjectIssuesArgs.projectKey := js "PROJ";
         ProjectIssuesArgs.maxResults := None;
         ProjectIssuesArgs.status := None |}
  | JiraGetTransitions => {| IssueArgs.issueKey := js "PROJ-7" |}
  end.

(** An update whose texts are all empty strings. *)
Definition blankArgs : UpdateArgs.t :=
  {| UpdateArgs.issueKey := js "PROJ-7";
     UpdateArgs.summary := Some [];
     UpdateArgs.description := Some [];
     UpdateArgs.assignee := None;
     UpdateArgs.priority := Some [];
     UpdateArgs.labels := VString (js "urgent") |}.

Definition statusArgs : Legacy.UpdateArgs.t :=
  {| Legacy.UpdateArgs.issueKey := js "PROJ-7";
     Legacy.UpdateArgs.summary := Some (js "New title");
     Legacy.UpdateArgs.description := None;
     Legacy.UpdateArgs.status := Some (js "done");
     Legacy.UpdateArgs.assignee := None |}.

End Sample.

(* ------------------------------------------------------------------ *)
(** ** Strings: equality and trimming *)

Lemma eqb_eq (a b : jsstring) : eqb a b = true <-> a = b.
Proof.
  revert b. induction a as [|x a IH]; intros [|y b]; simpl; split;
    try congruence; try discriminate.
  - intros H. apply andb_true_iff in H as [Hx Hab].
    apply N.eqb_eq in Hx. apply IH in Hab. congruence.
  - intros H. injection H as -> ->. rewrite N.eqb_refl. simpl. now apply IH.
Qed.

Lemma eqb_refl (a : jsstring) : eqb a a = true.
Proof. now apply eqb_eq. Qed.

Lemma eqb_neq (a b : jsstring) : eqb a b = false <-> a <> b.
Proof.
  split.
  - intros H E. apply eqb_eq in E. congruence.
  - intros H. destruct (eqb a b) eqn:E; [apply eqb_eq in E; contradiction | reflexivity].
Qed.



Lemma trimEnd_line_feed (s : jsstring) : trimEnd (s ++ nl) = trimEnd s.
Proof. unfold trimEnd, nl. rewrite rev_app_distr. reflexivity. Qed.


(* ------------------------------------------------------------------ *)
(** ** Objects *)

Lemma lookup_assign_same k v props : lookup k (assign k v props) = Some v.
Proof.
  induction props as [|[k' v'] rest IH]; simpl.
  - now rewrite eqb_refl.
  - destruct (eqb k k') eqn:E; simpl; rewrite ?eqb_refl, ?E; auto.
Qed.

Lemma lookup_assign_other k k' v props :
  eqb k k' = false -> lookup k (assign k' v props) = lookup k props.
Proof.
  intros Hk. induction props as [|[k'' v''] rest IH]; simpl.
  - now rewrite Hk.
  - destruct (eqb k' k'') eqn:E; simpl.
    + apply eqb_eq in E. subst k''. now rewrite Hk.
    + destruct (eqb k k''); auto.
Qed.

Lemma keys_assign_in k k' v props :
  In k (keys (assign k' v props)) -> k = k' \/ In k (keys props).
Proof.
  unfold keys. induction props as [|[k'' v''] rest IH]; simpl.
  - intuition auto.
  - destruct (eqb k' k'') eqn:E; simpl.
    + apply eqb_eq in E. subst k''. intuition auto.
    + intros [H|H]; [tauto|]. apply IH in H. tauto.
Qed.

(* ------------------------------------------------------------------ *)
(** ** The rich-text codec: round trip and totality *)

Import Shape.

Lemma extract_adfDocument (text : jsstring) :
  extractDescription (adfDocument text) =
    match trim (text ++ nl) with
    | [] => Normal noDescription
    | trimmed => Normal trimmed
    end.
Proof. reflexivity. Qed.

Ltac lookup_fields :=
  repeat first
    [ rewrite lookup_assign_same
    | rewrite lookup_assign_other by reflexivity ].

(** The [description] that [createIssue] places in its payload is the
    document built around a non-empty text, and nothing for the empty
    text. *)
Lemma createFields_description toLowerCase project summary description priority
    assignee labels issueTypeObj :
  lookup (js "description")
    (createFields toLowerCase project summary description priority assignee
       labels issueTypeObj) =
  match description with
  | [] => None
  | _ => Some (adfDocument description)
  end.
Proof.
  unfold createFields.
  destruct (truthy (optString assignee)), (truthy labels && isArray labels),
    (fieldsPriority issueTypeObj) as [pf|];
    try destruct (truthy (VString priority));
    try destruct (find _ _);
    destruct description; simpl truthy; cbv iota; lookup_fields; reflexivity.
Qed.




(** C8, as amended: every non-empty plain string is returned unchanged. *)
Theorem decode_plain_string (s : jsstring) :
  s <> [] -> extractDescription (VString s) = Normal s.
Proof. destruct s; [contradiction | reflexivity]. Qed.

Lemma decode_plain_string_witness :
  extractDescription (VString (js "plain text")) = Normal (js "plain text").
Proof. apply decode_plain_string. discriminate. Defined.

(** C8 as the spec states it fails on the empty string, which is falsy:
    the fallback is returned instead. *)
Lemma decode_empty_string :
  extractDescription (VString []) = Normal noDescription
  /\ extractDescription (VString []) <> Normal [].
Proof. split; [reflexivity | discriminate]. Qed.

Lemma hasContent_object props kind :
  hasContent (VObject props) kind =
    Normal match lookup (js "type") props, lookup (js "content") props with
           | Some ty, Some content => isString ty kind && truthy content
           | _, _ => false
           end.
Proof.
  unfold hasContent, get.
  destruct (lookup (js "type") props) as [ty|]; simpl; [|reflexivity].
  destruct (isString ty kind); simpl; [|now destruct (lookup (js "content") props)].
  now destruct (lookup (js "content") props).
Qed.

Lemma hasContent_paragraph node :
  isNullish node = false ->
  hasContent node (js "paragraph") = Normal (isParagraph node).
Proof.
  destruct node; try discriminate; try reflexivity.
  intros _. apply hasContent_object.
Qed.

Lemma hasContent_doc description :
  isNullish description = false ->
  hasContent description (js "doc") = Normal (isDocument description).
Proof.
  destruct description; try discriminate; try reflexivity.
  intros _. apply hasContent_object.
Qed.

Lemma appendTexts_inlineText children :
  forallb inlineOk children = true ->
  forall text,
    appendTexts children text = Normal (text ++ List.concat (map inlineText children)).
Proof.
  induction children as [|child rest IH]; intros Hok text.
  - simpl. now rewrite app_nil_r.
  - simpl in Hok. apply andb_true_iff in Hok as [Hchild Hrest].
    destruct child as [| | | | | |props]; try discriminate.
    unfold inlineOk in Hchild.
    cbn [appendTexts map List.concat inlineText get].
    destruct (lookup (js "type") props) as [ty|]; cbn [cbind isString];
      [|now apply IH].
    destruct (isString ty (js "text")); [|now apply IH].
    destruct (lookup (js "text") props) as [[]|]; try discriminate;
      cbn [cbind toString]; rewrite IH by assumption; now rewrite <- app_assoc.
Qed.

Lemma appendParagraphs_plainText nodes :
  forallb blockOk nodes = true ->
  forall text, appendParagraphs nodes text = Normal (text ++ plainText nodes).
Proof.
  unfold plainText.
  induction nodes as [|node rest IH]; intros Hok text; simpl.
  - now rewrite app_nil_r.
  - simpl in Hok. apply andb_true_iff in Hok as [Hnode Hrest].
    destruct node as [| | | | | |props]; try discriminate.
    rewrite hasContent_paragraph by reflexivity.
    unfold blockOk in Hnode. unfold blockText.
    destruct (isParagraph (VObject props)); simpl; [|now apply IH].
    destruct (lookup (js "content") props) as [[]|]; try discriminate. simpl.
    rewrite appendTexts_inlineText by assumption. simpl.
    rewrite IH by assumption. now rewrite <- !app_assoc.
Qed.

Lemma appendParagraphs_none nodes :
  forallb (fun n => negb (isNullish n) && negb (isParagraph n)) nodes = true ->
  forall text, appendParagraphs nodes text = Normal text.
Proof.
  induction nodes as [|node rest IH]; intros Hok text; simpl; [reflexivity|].
  simpl in Hok. apply andb_true_iff in Hok as [Hnode Hrest].
  apply andb_true_iff in Hnode as [Hnull Hpar].
  apply negb_true_iff in Hnull, Hpar.
  rewrite hasContent_paragraph, Hpar by assumption. simpl. now apply IH.
Qed.

Lemma value_induction (P : value -> Prop) :
  P VUndefined -> P VNull -> (forall b, P (VBool b)) -> (forall n, P (VNum n)) ->
  (forall s, P (VString s)) ->
  (forall items, Forall P items -> P (VArray items)) ->
  (forall props, Forall (fun kv => P (snd kv)) props -> P (VObject props)) ->
  forall v, P v.
Proof.
  intros Hu Hn Hb Hnum Hs Ha Ho. fix IH 1.
  intros [| |b|n|s|items|props];
    [exact Hu | exact Hn | apply Hb | apply Hnum | apply Hs | |].
  - apply Ha. induction items as [|item rest IHitems]; constructor;
      [apply IH | exact IHitems].
  - apply Ho. induction props as [|[k v] rest IHprops]; constructor;
      [apply IH | exact IHprops].
Qed.

(** Whatever [ToString] throws is a [TypeError]. *)
Lemma toString_throws (v : value) (e : exn) :
  toString v = Abrupt e -> e = TypeError.
Proof.
  revert e. induction v as [| |b|n|s|items IH|props _] using value_induction;
    intros e; simpl; try discriminate.
  - now destruct b.
  - induction IH as [|item rest Hitem _ IHrest]; simpl; [discriminate|].
    match goal with
    | |- context [ cbind ?first _ ] =>
        match first with
        | match item with _ => _ end =>
            destruct first as [shown|e0] eqn:Eitem
        end
    end; cbn [cbind].
    + match type of IHrest with
      | cbind ?tail _ = _ -> _ => destruct tail as [ss|e1]
      end; cbn [cbind] in *; [discriminate|].
      intros H. injection H as <-. now apply IHrest.
    + intros H. injection H as <-. apply Hitem.
      destruct item; try exact Eitem; discriminate Eitem.
  - destruct (lookup (js "toString") props); [|discriminate].
    intros H. now injection H as <-.
Qed.

Lemma appendTexts_throws children :
  forall text e, appendTexts children text = Abrupt e -> e = TypeError.
Proof.
  induction children as [|child rest IH]; intros text e; simpl; [discriminate|].
  destruct (get child (js "type")) as [ty|e'] eqn:Ety; simpl.
  - destruct (isString ty (js "text")); [|apply IH].
    destruct (get child (js "text")) as [t|e'] eqn:Et; simpl.
    + destruct (toString t) as [shown|e'] eqn:Es; simpl; [apply IH|].
      intros H. injection H as <-. now apply toString_throws in Es.
    + destruct child; simpl in Et; try discriminate;
        try (intros H; injection H as <-; now injection Et as <-).
      now destruct (lookup (js "text") props).
  - destruct child; simpl in Ety; try discriminate;
      try (intros H; injection H as <-; now injection Ety as <-).
    now destruct (lookup (js "type") props).
Qed.

Lemma appendParagraphs_nullish nodes :
  existsb isNullish nodes = true ->
  forall text, appendParagraphs nodes text = Abrupt TypeError.
Proof.
  induction nodes as [|node rest IH]; intros Hex text; [discriminate|].
  simpl in Hex. cbn [appendParagraphs].
  destruct (isNullish node) eqn:Hnull.
  - now destruct node.
  - simpl in Hex. rewrite hasContent_paragraph by assumption. cbn [cbind].
    destruct (isParagraph node); [|now apply IH].
    destruct (get node (js "content")) as [inner|e] eqn:Einner; cbn [cbind].
    + destruct (iterate inner) as [children|e] eqn:Eit; cbn [cbind].
      * destruct (appendTexts children text) as [text'|e] eqn:Etexts; cbn [cbind];
          [now apply IH|].
        now apply appendTexts_throws in Etexts as ->.
      * destruct inner; simpl in Eit; try discriminate; now injection Eit as <-.
    + destruct node; simpl in Einner; try discriminate.
      now destruct (lookup (js "content") props).
Qed.

(** C7, as amended: [extractDescription] returns, without throwing,
    - "No description" for every falsy input ([null], absent, the empty
      string);
    - a non-empty string as it is, and "No description" for the empty
      one;
    - "No description" for every other input that is not a document
      with content (the empty document among them);
    - "No description" for a document whose content array has no
      paragraph with content and no [null] or absent child;
    - for a document whose content is an array of objects, the
      paragraphs among them holding arrays of objects whose [text] is a
      string or absent: the texts of the text nodes of each paragraph
      (an absent text printing as "undefined"), a line feed after every
      paragraph, the whole trimmed at both ends, and "No description"
      when nothing is left.
    It throws a [TypeError] on a document whose content is neither an
    array nor a string, and on a document whose content array holds
    [null] or an absent child. *)
Theorem decode_total_on_shapes :
  (forall d, truthy d = false -> extractDescription d = Normal (js "No description"))
  /\ (forall s, extractDescription (VString s) =
                Normal match s with
                       | [] => js "No description"
                       | _ => s
                       end)
  /\ (forall d, isDocument d = false ->
        extractDescription d =
          Normal match d with
                 | VString (c :: s) => c :: s
                 | _ => js "No description"
                 end)
  /\ (forall props nodes,
        isDocument (VObject props) = true ->
        lookup (js "content") props = Some (VArray nodes) ->
        forallb (fun n => negb (isNullish n) && negb (isParagraph n)) nodes = true ->
        extractDescription (VObject props) = Normal (js "No description"))
  /\ (forall props nodes,
        isDocument (VObject props) = true ->
        lookup (js "content") props = Some (VArray nodes) ->
        forallb blockOk nodes = true ->
        extractDescription (VObject props) =
          Normal match trim (plainText nodes) with
                 | [] => js "No description"
                 | trimmed => trimmed
                 end)
  /\ (forall props content,
        isDocument (VObject props) = true ->
        lookup (js "content") props = Some content ->
        isIterable content = false ->
        extractDescription (VObject props) = Abrupt TypeError)
  /\ (forall props nodes,
        isDocument (VObject props) = true ->
        lookup (js "content") props = Some (VArray nodes) ->
        existsb isNullish nodes = true ->
        extractDescription (VObject props) = Abrupt TypeError).
Proof.
  assert (Hdoc : forall props content,
            isDocument (VObject props) = true ->
            lookup (js "content") props = Some content ->
            extractDescription (VObject props) =
              (nodes <- iterate content ;;
               text <- appendParagraphs nodes [] ;;
               match trim text with
               | [] => Normal noDescription
               | trimmed => Normal trimmed
               end)).
  { intros props content Hd Hcontent. unfold extractDescription.
    simpl truthy. simpl negb. cbv iota.
    rewrite hasContent_doc, Hd by reflexivity. simpl. now rewrite Hcontent. }
  repeat split.
  - intros d Hd. unfold extractDescription. now rewrite Hd.
  - now intros [|c s].
  - intros d Hd. unfold extractDescription.
    destruct (truthy d) eqn:Ht; simpl.
    + rewrite hasContent_doc, Hd by (now destruct d). simpl.
      destruct d as [| | | |[|c s]| |]; try reflexivity. discriminate Ht.
    + destruct d as [| | | |[|c s]| |]; try reflexivity; discriminate Ht.
  - intros props nodes Hd Hcontent Hnodes.
    rewrite (Hdoc _ _ Hd Hcontent). simpl. now rewrite appendParagraphs_none.
  - intros props nodes Hd Hcontent Hnodes.
    rewrite (Hdoc _ _ Hd Hcontent). simpl.
    rewrite appendParagraphs_plainText by assumption. simpl.
    now destruct (trim (plainText nodes)).
  - intros props content Hd Hcontent Hiter.
    rewrite (Hdoc _ _ Hd Hcontent). now destruct content.
  - intros props nodes Hd Hcontent Hnull.
    rewrite (Hdoc _ _ Hd Hcontent). simpl. now rewrite appendParagraphs_nullish.
Qed.

Lemma decode_total_on_shapes_witness :
  extractDescription VNull = Normal (js "No description")
  /\ extractDescription (VObject [ (js "type", VString (js "doc")) ]) =
       Normal (js "No description")
  /\ extractDescription
       (VObject [ (js "type", VString (js "doc")); (js "content", VArray []) ]) =
       Normal (js "No description")
  /\ extractDescription
       (Sample.docAround
          [ Sample.paragraphOf [ js "two "; js "words " ]; Sample.heading;
            Sample.paragraphOf [ js "more" ] ]) =
       Normal (js "two words " ++ nl ++ js "more")
  /\ extractDescription
       (VObject [ (js "type", VString (js "doc")); (js "content", VBool true) ]) =
       Abrupt TypeError
  /\ extractDescription nullChildDocument = Abrupt TypeError.
Proof.
  destruct decode_total_on_shapes
    as (Hfalsy & _ & Hnon & Hnone & Hwf & Hiter & Hnull).
  split; [apply Hfalsy; reflexivity|].
  split; [apply (Hnon (VObject [ (js "type", VString (js "doc")) ])); reflexivity|].
  split; [apply (Hnone _ []); reflexivity|].
  split; [|split].
  - exact (Hwf [ (js "type", VString (js "doc"));
                 (js "content",
                   VArray [ Sample.paragraphOf [ js "two "; js "words " ];
                            Sample.heading;
                            Sample.paragraphOf [ js "more" ] ]) ]
             [ Sample.paragraphOf [ js "two "; js "words " ]; Sample.heading;
               Sample.paragraphOf [ js "more" ] ]
             eq_refl eq_refl eq_refl).
  - apply (Hiter _ (VBool true)); reflexivity.
  - apply (Hnull _ [ VNull ]); reflexivity.
Defined.

(** C7 as the spec states it fails: on a document whose content holds
    [null], reading the child's [type] throws. *)
Lemma decode_throws_on_null_child :
  extractDescription nullChildDocument = Abrupt TypeError
  /\ ~ (exists s, extractDescription nullChildDocument = Normal s
                  /\ (nullChildDocument = VString s \/ s = noDescription)).
Proof.
  split; [reflexivity|]. intros (s & E & _). discriminate E.
Qed.

(* ------------------------------------------------------------------ *)
(** ** Properties of the handlers *)

Section Properties.

Variable toLowerCase : jsstring -> jsstring.
Variable jiraConfig : jiraConfigT.
Variable World : Type.
Variable remote : forall X, request X -> World -> completion X * World.

Lemma run_await X A (r : request X) (k : X -> prog A) (w : World) :
  run remote (pbind (makeJiraRequest r) k) w =
    match remote r w with
    | (Normal x, w') => after (Sent r) (run remote (k x) w')
    | (Abrupt e, w') => ([Sent r], Abrupt e, w')
    end.
Proof.
  simpl. destruct (remote r w) as [[x|e] w']; simpl; [|reflexivity].
  unfold after. now destruct (run remote (k x) w') as [[calls outcome] w''].
Qed.

Lemma run_await_last X A (r : request X) (f : X -> A) (w : World) :
  run remote (pbind (makeJiraRequest r) (fun x => Ret (f x))) w =
    ([Sent r], settle (fst (remote r w)) f, snd (remote r w)).
Proof.
  rewrite run_await. now destruct (remote r w) as [[x|e] w'].
Qed.

Lemma run_try_await X A (r : request X) (h : exn -> prog X) (k : X -> prog A)
    (w w' : World) (x : X) :
  remote r w = (Normal x, w') ->
  run remote (pbind (tryCatch (makeJiraRequest r) h) k) w =
    after (Sent r) (run remote (k x) w').
Proof.
  intros H. simpl. rewrite H. simpl. unfold after.
  now destruct (run remote (k x) w') as [[calls outcome] w''].
Qed.

Lemma find_none A (f : A -> bool) (l : list A) :
  Forall (fun x => f x = false) l -> find f l = None.
Proof.
  induction 1 as [|x l Hx _ IH]; simpl; [reflexivity|]. now rewrite Hx.
Qed.

Lemma find_first A (f : A -> bool) (before after : list A) (x : A) :
  Forall (fun y => f y = false) before -> f x = true ->
  find f (before ++ x :: after) = Some x.
Proof.
  intros Hb Hx. induction Hb as [|y l Hy _ IH]; simpl.
  - now rewrite Hx.
  - now rewrite Hy.
Qed.

Lemma sameName_false (a b : jsstring) :
  toLowerCase a <> toLowerCase b -> sameName toLowerCase a b = false.
Proof. intros H. now apply eqb_neq. Qed.

Lemma no_match A (name : A -> jsstring) (wanted : jsstring) (l : list A) :
  Forall (fun x => toLowerCase (name x) <> toLowerCase wanted) l ->
  Forall (fun x => sameName toLowerCase (name x) wanted = false) l.
Proof. intros H. eapply Forall_impl; [|exact H]. intros x. apply sameName_false. Qed.

(** C1: for [create_issue({project:"PROJ", summary:"Fix login bug",
    issueType:"Bug"})], when the project is found and the fetched catalog
    resolves the name to the entry named Bug with id 10004 that declares
    no priority field (no entry before it matches the name when case is
    ignored), the body posted to the create endpoint has as its [fields]
    exactly [{project:{key:"PROJ"}, summary:"Fix login bug",
    issuetype:{id:"10004"}}], with no [priority] and no [description]
    key; the handler's outcome is that of the post. *)
Theorem create_issue_bug_payload
    (w0 w1 w2 w3 : World) (before rest : list issueTypeMeta)
    (bug : issueTypeMeta) (others : list projectMeta)
    (answer : completion jsstring) :
  remote (GetProject (js "PROJ")) w0 = (Normal tt, w1) ->
  remote (GetCreateMeta (js "PROJ")) w1 =
    (Normal ({| issuetypes := before ++ bug :: rest |} :: others), w2) ->
  typeName bug = js "Bug" ->
  typeId bug = VString (js "10004") ->
  fieldsPriority bug = None ->
  Forall (fun t => toLowerCase (typeName t) <> toLowerCase (js "Bug")) before ->
  remote (PostIssue (VObject [ (js "fields", VObject Scenario.bugFields) ])) w2 =
    (answer, w3) ->
  run remote (createIssue toLowerCase jiraConfig Scenario.bugArgs) w0 =
    ([ Sent (GetProject (js "PROJ"));
       Sent (GetCreateMeta (js "PROJ"));
       Sent (PostIssue (VObject [ (js "fields", VObject Scenario.bugFields) ])) ],
     settle answer
       (fun issueKey =>
          textResult (createdText jiraConfig issueKey (js "Fix login bug")
                        (js "Bug") (js "Medium") (js "PROJ"))),
     w3)
  /\ keys Scenario.bugFields = [ js "project"; js "summary"; js "issuetype" ]
  /\ lookup (js "priority") Scenario.bugFields = None
  /\ lookup (js "description") Scenario.bugFields = None.
Proof.
  intros Hproject Hmeta Hname Hid Hprio Hbefore Hpost.
  split; [|repeat split].
  unfold createIssue. cbn [Scenario.bugArgs CreateArgs.project CreateArgs.summary
    CreateArgs.description CreateArgs.issueType CreateArgs.priority
    CreateArgs.assignee CreateArgs.labels orDefault].
  erewrite run_try_await by exact Hproject.
  rewrite run_await, Hmeta.
  cbn [nth_error issuetypes].
  rewrite find_first;
    [| exact (no_match typeName Hbefore) | rewrite Hname; apply eqb_refl ].
  assert (Hfields :
    createFields toLowerCase (js "PROJ") (js "Fix login bug") [] (js "Medium")
      None VUndefined bug = Scenario.bugFields).
  { unfold createFields. rewrite Hprio, Hid. reflexivity. }
  rewrite Hfields, run_await_last, Hpost. reflexivity.
Qed.

(** C2: when the project is found and no fetched issue type matches the
    requested name with case ignored, [createIssue] throws after the two
    reads, nothing is posted, and the message holds the requested name
    and every fetched type name, in order. *)
Theorem create_issue_unknown_type
    (args : CreateArgs.t) (w0 w1 w2 : World)
    (meta : projectMeta) (others : list projectMeta) :
  remote (GetProject (CreateArgs.project args)) w0 = (Normal tt, w1) ->
  remote (GetCreateMeta (CreateArgs.project args)) w1 =
    (Normal (meta :: others), w2) ->
  Forall (fun t => toLowerCase (typeName t) <> toLowerCase (requestedType args))
    (issuetypes meta) ->
  run remote (createIssue toLowerCase jiraConfig args) w0 =
    ([ Sent (GetProject (CreateArgs.project args));
       Sent (GetCreateMeta (CreateArgs.project args)) ],
     Abrupt (Error (js "Issue type " ++ dquote ++ requestedType args ++ dquote ++
                    js " not found. Available types: " ++
                    join (js ", ") (map typeName (issuetypes meta)))),
     w2)
  /\ existsb isWrite
       (fst (fst (run remote (createIssue toLowerCase jiraConfig args) w0))) = false.
Proof.
  intros Hproject Hmeta Hnone.
  assert (Hrun : run remote (createIssue toLowerCase jiraConfig args) w0 =
    ([ Sent (GetProject (CreateArgs.project args));
       Sent (GetCreateMeta (CreateArgs.project args)) ],
     Abrupt (Error (js "Issue type " ++ dquote ++ requestedType args ++ dquote ++
                    js " not found. Available types: " ++
                    join (js ", ") (map typeName (issuetypes meta)))),
     w2)).
  { unfold createIssue.
    erewrite run_try_await by exact Hproject.
    rewrite run_await, Hmeta.
    cbn [nth_error].
    rewrite find_none by exact (no_match typeName Hnone).
    reflexivity. }
  split; [exact Hrun | now rewrite Hrun].
Qed.

Lemma createFields_no_priority project summary description priority assignee
    labels issueTypeObj :
  fieldsPriority issueTypeObj = None
  \/ (exists priorityField,
        fieldsPriority issueTypeObj = Some priorityField
        /\ Forall (fun p => toLowerCase (priorityName p) <> toLowerCase priority)
             (orDefault (allowedValues priorityField) [])) ->
  lookup (js "priority")
    (createFields toLowerCase project summary description priority assignee
       labels issueTypeObj) = None.
Proof.
  intros H. unfold createFields.
  assert (Hskip : forall fields,
    match fieldsPriority issueTypeObj with
    | Some priorityField =>
        if truthy (VString priority) then
          match find (fun p => sameName toLowerCase (priorityName p) priority)
                  (orDefault (allowedValues priorityField) []) with
          | Some priorityObj =>
              assign (js "priority")
                (VObject [ (js "id", priorityId priorityObj) ]) fields
          | None => fields
          end
        else fields
    | None => fields
    end = fields).
  { intros fields. destruct H as [->|(pf & -> & Hpf)]; [reflexivity|].
    rewrite find_none by exact (no_match priorityName Hpf).
    now destruct (truthy (VString priority)). }
  rewrite Hskip.
  destruct (truthy (optString assignee)), (truthy labels && isArray labels),
    (truthy (VString description)); lookup_fields; reflexivity.
Qed.

(** C3: once the issue type is resolved, a priority name without a match
    among the type's allowed values, or a type without a priority field,
    stops nothing: the payload is posted without a [priority] key, the
    outcome is that of the post, and the success text, written out here
    in full, has the line "Priority: " followed by the priority string
    of the call (Medium when the call gives none), whatever was
    resolved. *)
Theorem create_issue_priority_best_effort
    (args : CreateArgs.t) (w0 w1 w2 w3 : World)
    (meta : projectMeta) (others : list projectMeta)
    (issueTypeObj : issueTypeMeta) (answer : completion jsstring) :
  remote (GetProject (CreateArgs.project args)) w0 = (Normal tt, w1) ->
  remote (GetCreateMeta (CreateArgs.project args)) w1 =
    (Normal (meta :: others), w2) ->
  find (fun type => sameName toLowerCase (typeName type) (requestedType args))
    (issuetypes meta) = Some issueTypeObj ->
  fieldsPriority issueTypeObj = None
  \/ (exists priorityField,
        fieldsPriority issueTypeObj = Some priorityField
        /\ Forall (fun p => toLowerCase (priorityName p) <>
                            toLowerCase (requestedPriority args))
             (orDefault (allowedValues priorityField) [])) ->
  remote (PostIssue
            (VObject [ (js "fields",
                         VObject (issueFields toLowerCase args issueTypeObj)) ]))
    w2 = (answer, w3) ->
  run remote (createIssue toLowerCase jiraConfig args) w0 =
    ([ Sent (GetProject (CreateArgs.project args));
       Sent (GetCreateMeta (CreateArgs.project args));
       Sent (PostIssue
               (VObject [ (js "fields",
                            VObject (issueFields toLowerCase args issueTypeObj)) ])) ],
     settle answer
       (fun issueKey =>
          VObject
            [ (js "content",
                VArray
                  [ VObject
                      [ (js "type", VString (js "text"));
                        (js "text",
                          VString
                            (checkMark ++ js " Successfully created issue: **" ++
                             issueKey ++ js "**" ++ nl ++
                             js "Summary: " ++ CreateArgs.summary args ++ nl ++
                             js "Type: " ++
                             orDefault (CreateArgs.issueType args) defaultIssueType ++
                             nl ++
                             js "Priority: " ++
                             orDefault (CreateArgs.priority args) (js "Medium") ++
                             nl ++
                             js "Project: " ++ CreateArgs.project args ++ nl ++
                             js "URL: " ++
                             (url jiraConfig ++ js "/browse/" ++ issueKey))) ] ]) ]),
     w3)
  /\ lookup (js "priority") (issueFields toLowerCase args issueTypeObj) = None.
Proof.
  intros Hproject Hmeta Htype Hprio Hpost. split.
  - unfold createIssue.
    erewrite run_try_await by exact Hproject.
    rewrite run_await, Hmeta.
    cbn [nth_error].
    fold (requestedType args). rewrite Htype.
    fold (requestedPriority args).
    fold (issueFields toLowerCase args issueTypeObj).
    rewrite run_await_last, Hpost. reflexivity.
  - now apply createFields_no_priority.
Qed.

(** C4: when no fetched transition leads to a status whose name matches
    the requested one with case ignored, [transitionIssue] throws after
    the read, nothing is posted, and the message holds the requested name
    and the destination names of the fetched transitions, in order. *)
Theorem transition_issue_unavailable
    (args : TransitionArgs.t) (w0 w1 : World) (transitions : list transition) :
  remote (GetTransitions (TransitionArgs.issueKey args)) w0 =
    (Normal transitions, w1) ->
  Forall (fun t => toLowerCase (toName t) <>
                   toLowerCase (TransitionArgs.status args)) transitions ->
  run remote (transitionIssue toLowerCase jiraConfig args) w0 =
    ([ Sent (GetTransitions (TransitionArgs.issueKey args)) ],
     Abrupt (Error (js "Status " ++ dquote ++ TransitionArgs.status args ++ dquote ++
                    js " not available. Available statuses: " ++
                    join (js ", ") (map toName transitions))),
     w1)
  /\ existsb isWrite
       (fst (fst (run remote (transitionIssue toLowerCase jiraConfig args) w0)))
     = false.
Proof.
  intros Hget Hnone.
  assert (Hrun : run remote (transitionIssue toLowerCase jiraConfig args) w0 =
    ([ Sent (GetTransitions (TransitionArgs.issueKey args)) ],
     Abrupt (Error (js "Status " ++ dquote ++ TransitionArgs.status args ++ dquote ++
                    js " not available. Available statuses: " ++
                    join (js ", ") (map toName transitions))),
     w1)).
  { unfold transitionIssue. rewrite run_await, Hget.
    rewrite find_none by exact (no_match toName Hnone).
    reflexivity. }
  split; [exact Hrun | now rewrite Hrun].
Qed.

(** C10: among the fetched transitions, the first whose destination name
    matches the requested status with case ignored is the one posted,
    whatever follows it in the list (further matches included); the
    outcome is that of the post. *)
Theorem transition_issue_first_match
    (args : TransitionArgs.t) (w0 w1 w2 : World)
    (before rest : list transition) (chosen : transition)
    (answer : completion unit) :
  remote (GetTransitions (TransitionArgs.issueKey args)) w0 =
    (Normal (before ++ chosen :: rest), w1) ->
  Forall (fun t => toLowerCase (toName t) <>
                   toLowerCase (TransitionArgs.status args)) before ->
  toLowerCase (toName chosen) = toLowerCase (TransitionArgs.status args) ->
  remote (PostTransition (TransitionArgs.issueKey args)
            (VObject [ (js "transition",
                         VObject [ (js "id", transitionId chosen) ]) ])) w1 =
    (answer, w2) ->
  run remote (transitionIssue toLowerCase jiraConfig args) w0 =
    ([ Sent (GetTransitions (TransitionArgs.issueKey args));
       Sent (PostTransition (TransitionArgs.issueKey args)
               (VObject [ (js "transition",
                            VObject [ (js "id", transitionId chosen) ]) ])) ],
     settle answer
       (fun _ =>
          textResult (transitionedText jiraConfig (TransitionArgs.issueKey args)
                        (TransitionArgs.status args))),
     w2).
Proof.
  intros Hget Hbefore Hchosen Hpost.
  unfold transitionIssue. rewrite run_await, Hget.
  rewrite find_first;
    [| exact (no_match toName Hbefore) | now apply eqb_eq ].
  rewrite run_await_last, Hpost. reflexivity.
Qed.

(** C5: [updateIssue] with nothing but [issueKey] sends no request and
    returns the success text; every key of the patch is one of the five
    optional arguments and was supplied, with the value built from it;
    and a request is sent, one PUT of that patch, exactly when the patch
    has a key. *)
Theorem update_issue_only_supplied :
  (forall (issueKey : jsstring) (w : World),
     run remote
       (updateIssue jiraConfig
          {| UpdateArgs.issueKey := issueKey;
             UpdateArgs.summary := None;
             UpdateArgs.description := None;
             UpdateArgs.assignee := None;
             UpdateArgs.priority := None;
             UpdateArgs.labels := VUndefined |}) w =
     ([], Normal (textResult (updatedText jiraConfig issueKey)), w))
  /\ (forall (args : UpdateArgs.t) (k : jsstring) (v : value),
        lookup k (updateFields args) = Some v ->
        (k = js "summary"
         /\ exists s, UpdateArgs.summary args = Some s /\ v = VString s)
        \/ (k = js "description"
            /\ exists s, UpdateArgs.description args = Some s /\ v = adfDocument s)
        \/ (k = js "assignee"
            /\ exists s, UpdateArgs.assignee args = Some s
                         /\ v = VObject [ (js "emailAddress", VString s) ])
        \/ (k = js "priority"
            /\ exists s, UpdateArgs.priority args = Some s
                         /\ v = VObject [ (js "name", VString s) ])
        \/ (k = js "labels"
            /\ UpdateArgs.labels args <> VUndefined /\ v = UpdateArgs.labels args))
  /\ (forall (args : UpdateArgs.t) (w : World),
        run remote (updateIssue jiraConfig args) w =
        match updateFields args with
        | [] =>
            ([], Normal (textResult (updatedText jiraConfig (UpdateArgs.issueKey args))), w)
        | fields =>
            let answer :=
              remote (PutIssue (UpdateArgs.issueKey args)
                        (VObject [ (js "fields", VObject fields) ])) w in
            ([ Sent (PutIssue (UpdateArgs.issueKey args)
                       (VObject [ (js "fields", VObject fields) ])) ],
             settle (fst answer)
               (fun _ => textResult (updatedText jiraConfig (UpdateArgs.issueKey args))),
             snd answer)
        end).
Proof.
  split; [reflexivity|]. split.
  - intros [issueKey summary description assignee priority labels] k v.
    unfold updateFields. cbn [UpdateArgs.summary UpdateArgs.description
      UpdateArgs.assignee UpdateArgs.priority UpdateArgs.labels].
    destruct summary as [[|? ?]|], description as [[|? ?]|],
      assignee as [[|? ?]|], priority as [[|? ?]|];
      cbn [optString truthy orDefault];
      destruct (truthy labels && isArray labels) eqn:Hlabels;
      cbn;
      repeat match goal with
             | |- context [eqb k ?key] =>
                 let E := fresh "E" in
                 destruct (eqb k key) eqn:E; [apply eqb_eq in E|]; cbv iota
             end;
      intros Hv; try discriminate Hv; injection Hv as <-; subst k;
      try (left; split; [reflexivity|]; eauto; fail);
      try (right; left; split; [reflexivity|]; eauto; fail);
      try (right; right; left; split; [reflexivity|]; eauto; fail);
      try (right; right; right; left; split; [reflexivity|]; eauto; fail);
      (right; right; right; right; split; [reflexivity|]; split; [|reflexivity];
       intros ->; discriminate Hlabels).
  - intros args w. unfold updateIssue.
    destruct (updateFields args) as [|field fields] eqn:Hfields;
      [reflexivity|].
    cbn [keys map List.length Nat.ltb Nat.leb].
    rewrite run_await.
    destruct (remote _ w) as [[[]|e] w']; reflexivity.
Qed.

Lemma run_searchIssues (args : SearchArgs.t) (w : World) :
  fst (fst (run remote (searchIssues jiraConfig args) w)) =
    match encodeURIComponent (SearchArgs.jql args) with
    | Normal query =>
        [ Sent (GetSearch query (orDefault (SearchArgs.maxResults args) 50%Z)) ]
    | Abrupt _ => []
    end
  /\ forall e, encodeURIComponent (SearchArgs.jql args) = Abrupt e ->
       run remote (searchIssues jiraConfig args) w = ([], Abrupt e, w).
Proof.
  unfold searchIssues.
  destruct (encodeURIComponent (SearchArgs.jql args)) as [query|e'].
  - cbn [evaluate pbind]. rewrite run_await_last. split; [reflexivity|discriminate].
  - split; [reflexivity|]. intros e He. now injection He as <-.
Qed.

(** C9, as amended: [getProjectIssues] is [searchIssues] on the
    synthesized query and the given [maxResults] (50 when absent), which
    sends one search with the query URI-encoded, or throws before any
    request when [encodeURIComponent] does; the query carries the status
    clause exactly when the status is a non-empty string, and lacks it
    when the status is absent or the empty string; for PROJ and Done it
    is [project = PROJ AND status = "Done" ORDER BY created DESC]. *)
Theorem get_project_issues_jql
    (projectKey : jsstring) (maxResults : option Z) (status : option jsstring) :
  getProjectIssues jiraConfig
    {| ProjectIssuesArgs.projectKey := projectKey;
       ProjectIssuesArgs.maxResults := maxResults;
       ProjectIssuesArgs.status := status |} =
  searchIssues jiraConfig
    {| SearchArgs.jql := projectJql projectKey status;
       SearchArgs.maxResults := Some (orDefault maxResults 50%Z) |}
  /\ (forall w : World,
        fst (fst (run remote
                    (getProjectIssues jiraConfig
                       {| ProjectIssuesArgs.projectKey := projectKey;
                          ProjectIssuesArgs.maxResults := maxResults;
                          ProjectIssuesArgs.status := status |}) w)) =
        match encodeURIComponent (projectJql projectKey status) with
        | Normal query => [ Sent (GetSearch query (orDefault maxResults 50%Z)) ]
        | Abrupt _ => []
        end)
  /\ (forall (w : World) (e : exn),
        encodeURIComponent (projectJql projectKey status) = Abrupt e ->
        run remote
          (getProjectIssues jiraConfig
             {| ProjectIssuesArgs.projectKey := projectKey;
                ProjectIssuesArgs.maxResults := maxResults;
                ProjectIssuesArgs.status := status |}) w = ([], Abrupt e, w))
  /\ (forall c s, status = Some (c :: s) ->
        projectJql projectKey status =
        js "project = " ++ projectKey ++ js " AND status = " ++ dquote ++
        (c :: s) ++ dquote ++ js " ORDER BY created DESC")
  /\ (status = None \/ status = Some [] ->
        projectJql projectKey status =
        js "project = " ++ projectKey ++ js " ORDER BY created DESC")
  /\ projectJql (js "PROJ") (Some (js "Done")) =
     js "project = PROJ AND status = " ++ dquote ++ js "Done" ++ dquote ++
     js " ORDER BY created DESC".
Proof.
  split; [reflexivity|]. split; [|split].
  { intros w. unfold getProjectIssues.
    cbn [ProjectIssuesArgs.projectKey ProjectIssuesArgs.maxResults
         ProjectIssuesArgs.status].
    now destruct (run_searchIssues
                    {| SearchArgs.jql := projectJql projectKey status;
                       SearchArgs.maxResults := Some (orDefault maxResults 50%Z) |}
                    w) as [-> _]. }
  { intros w e He. unfold getProjectIssues.
    cbn [ProjectIssuesArgs.projectKey ProjectIssuesArgs.maxResults
         ProjectIssuesArgs.status].
    now apply (run_searchIssues
                 {| SearchArgs.jql := projectJql projectKey status;
                    SearchArgs.maxResults := Some (orDefault maxResults 50%Z) |}). }
  split; [|split; [|reflexivity]].
  - intros c s ->. unfold projectJql. cbn [optString truthy orDefault].
    now rewrite <- !app_assoc.
  - intros [->| ->]; unfold projectJql; cbn [optString truthy];
      now rewrite <- !app_assoc.
Qed.

End Properties.

(* ------------------------------------------------------------------ *)
(** ** The theorems at work on the demo tracker *)

Lemma create_issue_bug_payload_witness :
  run Demo.tracker (createIssue Demo.lowerAscii Demo.config Scenario.bugArgs) 0 =
    ([ Sent (GetProject (js "PROJ"));
       Sent (GetCreateMeta (js "PROJ"));
       Sent (PostIssue (VObject [ (js "fields", VObject Scenario.bugFields) ])) ],
     Normal (textResult (createdText Demo.config (js "PROJ-1") (js "Fix login bug")
                           (js "Bug") (js "Medium") (js "PROJ"))),
     1)
  /\ keys Scenario.bugFields = [ js "project"; js "summary"; js "issuetype" ]
  /\ lookup (js "priority") Scenario.bugFields = None
  /\ lookup (js "description") Scenario.bugFields = None.
Proof.
  apply (@create_issue_bug_payload Demo.lowerAscii Demo.config nat Demo.tracker
           0 0 0 1 [ Demo.task ] [] Demo.bug [] (Normal (js "PROJ-1")));
    try reflexivity.
  constructor; [discriminate | constructor].
Defined.

Lemma create_issue_unknown_type_witness :
  run Demo.tracker
    (createIssue Demo.lowerAscii Demo.config
       {| CreateArgs.project := js "PROJ";
          CreateArgs.summary := js "Write docs";
          CreateArgs.description := None;
          CreateArgs.issueType := Some (js "Story");
          CreateArgs.priority := None;
          CreateArgs.assignee := None;
          CreateArgs.labels := VUndefined |}) 0 =
    ([ Sent (GetProject (js "PROJ")); Sent (GetCreateMeta (js "PROJ")) ],
     Abrupt (Error (js "Issue type " ++ dquote ++ js "Story" ++ dquote ++
                    js " not found. Available types: Task, Bug")),
     0).
Proof.
  apply (@create_issue_unknown_type Demo.lowerAscii Demo.config nat Demo.tracker
           {| CreateArgs.project := js "PROJ";
              CreateArgs.summary := js "Write docs";
              CreateArgs.description := None;
              CreateArgs.issueType := Some (js "Story");
              CreateArgs.priority := None;
              CreateArgs.assignee := None;
              CreateArgs.labels := VUndefined |}
           0 0 0 {| issuetypes := Demo.types |} []);
    try reflexivity.
  repeat constructor; discriminate.
Defined.

Lemma create_issue_priority_best_effort_witness :
  run Demo.tracker (createIssue Demo.lowerAscii Demo.config Demo.urgentArgs) 0 =
    ([ Sent (GetProject (js "PROJ"));
       Sent (GetCreateMeta (js "PROJ"));
       Sent (PostIssue
               (VObject [ (js "fields",
                            VObject (issueFields Demo.lowerAscii Demo.urgentArgs
                                       Demo.task)) ])) ],
     Normal
       (VObject
          [ (js "content",
              VArray
                [ VObject
                    [ (js "type", VString (js "text"));
                      (js "text",
                        VString
                          (checkMark ++ js " Successfully created issue: **PROJ-1**" ++
                           nl ++ js "Summary: Write docs" ++
                           nl ++ js "Type: task" ++
                           nl ++ js "Priority: Urgent" ++
                           nl ++ js "Project: PROJ" ++
                           nl ++ js "URL: https://jira.example.com/browse/PROJ-1")) ] ]) ]),
     1)
  /\ lookup (js "priority")
       (issueFields Demo.lowerAscii Demo.urgentArgs Demo.task) = None.
Proof.
  apply (@create_issue_priority_best_effort Demo.lowerAscii Demo.config nat
           Demo.tracker Demo.urgentArgs 0 0 0 1 {| issuetypes := Demo.types |} []
           Demo.task (Normal (js "PROJ-1")));
    try reflexivity.
  right. eexists. split; [reflexivity|]. repeat constructor; discriminate.
Defined.

Lemma transition_issue_unavailable_witness :
  run Demo.tracker
    (transitionIssue Demo.lowerAscii Demo.config
       {| TransitionArgs.issueKey := js "PROJ-7";
          TransitionArgs.status := js "Blocked" |}) 0 =
    ([ Sent (GetTransitions (js "PROJ-7")) ],
     Abrupt (Error (js "Status " ++ dquote ++ js "Blocked" ++ dquote ++
                    js " not available. Available statuses: In Progress, Done, DONE")),
     0).
Proof.
  apply (@transition_issue_unavailable Demo.lowerAscii Demo.config nat Demo.tracker
           {| TransitionArgs.issueKey := js "PROJ-7";
              TransitionArgs.status := js "Blocked" |}
           0 0 Demo.transitions);
    try reflexivity.
  repeat constructor; discriminate.
Defined.

(** Two fetched transitions lead to a status that matches "done"; the
    one returned first, with id 31, is posted. *)
Lemma transition_issue_first_match_witness :
  run Demo.tracker
    (transitionIssue Demo.lowerAscii Demo.config
       {| TransitionArgs.issueKey := js "PROJ-7";
          TransitionArgs.status := js "done" |}) 0 =
    ([ Sent (GetTransitions (js "PROJ-7"));
       Sent (PostTransition (js "PROJ-7")
               (VObject [ (js "transition",
                            VObject [ (js "id", VString (js "31")) ]) ])) ],
     Normal (textResult (transitionedText Demo.config (js "PROJ-7") (js "done"))),
     0).
Proof.
  apply (@transition_issue_first_match Demo.lowerAscii Demo.config nat Demo.tracker
           {| TransitionArgs.issueKey := js "PROJ-7";
              TransitionArgs.status := js "done" |}
           0 0 0
           [ {| transitionId := VString (js "11"); transitionName := js "Start";
                toName := js "In Progress" |} ]
           [ {| transitionId := VString (js "41"); transitionName := js "Close";
                toName := js "DONE" |} ]
           {| transitionId := VString (js "31"); transitionName := js "Resolve";
              toName := js "Done" |}
           (Normal tt));
    try reflexivity.
  repeat constructor; discriminate.
Defined.

Lemma update_issue_only_supplied_witness :
  run Demo.tracker (updateIssue Demo.config Demo.keyOnlyArgs) 0 =
    ([], Normal (textResult (updatedText Demo.config (js "PROJ-7"))), 0)
  /\ lookup (js "priority") (updateFields Demo.raiseArgs) =
       Some (VObject [ (js "name", VString (js "High")) ])
  /\ exists s, UpdateArgs.priority Demo.raiseArgs = Some s
               /\ VObject [ (js "name", VString (js "High")) ] =
                  VObject [ (js "name", VString s) ].
Proof.
  destruct (update_issue_only_supplied Demo.config Demo.tracker)
    as (Hnone & Honly & _).
  split; [apply Hnone|]. split; [reflexivity|].
  destruct (Honly Demo.raiseArgs (js "priority")
              (VObject [ (js "name", VString (js "High")) ]) eq_refl)
    as [[E _]|[[E _]|[[E _]|[[_ H]|[E _]]]]];
    try discriminate E.
  exact H.
Defined.

Lemma get_project_issues_jql_witness :
  projectJql (js "PROJ") (Some (js "Done")) =
    js "project = " ++ js "PROJ" ++ js " AND status = " ++ dquote ++
    js "Done" ++ dquote ++ js " ORDER BY created DESC"
  /\ projectJql (js "PROJ") None =
     js "project = " ++ js "PROJ" ++ js " ORDER BY created DESC"
  /\ fst (fst (run Demo.tracker
                 (getProjectIssues Demo.config
                    {| ProjectIssuesArgs.projectKey := js "PROJ";
                       ProjectIssuesArgs.maxResults := None;
                       ProjectIssuesArgs.status := Some (js "Done") |}) 0)) =
     [ Sent (GetSearch
               (js "project%20%3D%20PROJ%20AND%20status%20%3D%20%22Done%22%20ORDER%20BY%20created%20DESC")
               50%Z) ]
  /\ run Demo.tracker
       (getProjectIssues Demo.config
          {| ProjectIssuesArgs.projectKey := [ 56320%N ];
             ProjectIssuesArgs.maxResults := None;
             ProjectIssuesArgs.status := None |}) 0 = ([], Abrupt URIError, 0).
Proof.
  split; [|split; [|split]].
  - destruct (get_project_issues_jql Demo.config Demo.tracker (js "PROJ") None
                (Some (js "Done"))) as (_ & _ & _ & H & _).
    apply (H 68%N (js "one")). reflexivity.
  - destruct (get_project_issues_jql Demo.config Demo.tracker (js "PROJ") None None)
      as (_ & _ & _ & _ & H & _).
    apply H. now left.
  - destruct (get_project_issues_jql Demo.config Demo.tracker (js "PROJ") None
                (Some (js "Done"))) as (_ & H & _).
    rewrite H. reflexivity.
  - destruct (get_project_issues_jql Demo.config Demo.tracker [ 56320%N ] None None)
      as (_ & _ & H & _).
    apply H. reflexivity.
Defined.

(** C9 as the spec states it fails when the status supplied is the empty
    string: the handler's test [if (status)] is false and the query has
    no status clause. *)
Lemma project_jql_empty_status :
  fst (fst (run Demo.tracker
              (getProjectIssues Demo.config
                 {| ProjectIssuesArgs.projectKey := js "PROJ";
                    ProjectIssuesArgs.maxResults := None;
                    ProjectIssuesArgs.status := Some [] |}) 0)) =
    [ Sent (GetSearch (js "project%20%3D%20PROJ%20ORDER%20BY%20created%20DESC") 50%Z) ]
  /\ projectJql (js "PROJ") (Some []) <>
     js "project = PROJ AND status = " ++ dquote ++ [] ++ dquote ++
     js " ORDER BY created DESC".
Proof. split; [reflexivity | discriminate]. Qed.

(* ------------------------------------------------------------------ *)
(** ** More on the rich-text reader *)

(** X1: whatever [extractDescription] returns, it is not the empty
    string: an empty or blank text is replaced by the fallback. *)
Theorem decode_never_empty (description : value) (s : jsstring) :
  extractDescription description = Normal s -> s <> [].
Proof.
  unfold extractDescription.
  destruct (truthy description) eqn:Ht; simpl.
  - destruct (hasContent description (js "doc")) as [[|]|e]; simpl;
      [| |discriminate].
    + destruct (get description (js "content")) as [content|e]; simpl;
        [|discriminate].
      destruct (iterate content) as [nodes|e]; simpl; [|discriminate].
      destruct (appendParagraphs nodes []) as [text|e]; simpl; [|discriminate].
      destruct (trim text) eqn:E; intros H; injection H as <-; discriminate.
    + destruct description; intros H; injection H as <-; try discriminate.
      now destruct s0.
  - intros H. injection H as <-. discriminate.
Qed.

Lemma decode_never_empty_witness :
  extractDescription (adfDocument (js " ")) = Normal noDescription
  /\ noDescription <> [].
Proof.
  split; [reflexivity|].
  apply (decode_never_empty (adfDocument (js " "))). reflexivity.
Defined.

Lemma appendTexts_textNodes (texts : list jsstring) (text : jsstring) :
  appendTexts (map Sample.textNode texts) text = Normal (text ++ List.concat texts).
Proof.
  revert text. induction texts as [|t rest IH]; intros text; simpl.
  - now rewrite app_nil_r.
  - rewrite IH. now rewrite <- app_assoc.
Qed.

Lemma appendParagraphs_paragraphs (paragraphs : list (list jsstring)) (text : jsstring) :
  appendParagraphs (map Sample.paragraphOf paragraphs) text =
    Normal (text ++ List.concat (map (fun texts => List.concat texts ++ nl) paragraphs)).
Proof.
  revert text. induction paragraphs as [|p rest IH]; intros text.
  - simpl. now rewrite app_nil_r.
  - cbn [map appendParagraphs].
    change (hasContent (Sample.paragraphOf p) (js "paragraph")) with (Normal true).
    cbn [cbind].
    change (get (Sample.paragraphOf p) (js "content"))
      with (Normal (VArray (map Sample.textNode p))).
    cbn [cbind iterate]. rewrite appendTexts_textNodes. cbn [cbind].
    rewrite IH. cbn [List.concat]. now rewrite <- !app_assoc.
Qed.

(** X2: a document of text paragraphs decodes to the texts of each
    paragraph put together, one line feed after every paragraph, the
    whole trimmed at both ends; the fallback when nothing is left. *)
Theorem decode_paragraphs (paragraphs : list (list jsstring)) :
  extractDescription (Sample.documentOf paragraphs) =
    Normal match trim (List.concat (map (fun texts => List.concat texts ++ nl) paragraphs)) with
           | [] => noDescription
           | trimmed => trimmed
           end.
Proof.
  unfold extractDescription.
  change (truthy (Sample.documentOf paragraphs)) with true. cbn [negb].
  change (hasContent (Sample.documentOf paragraphs) (js "doc")) with (Normal true).
  cbn [cbind].
  change (get (Sample.documentOf paragraphs) (js "content"))
    with (Normal (VArray (map Sample.paragraphOf paragraphs))).
  cbn [cbind iterate]. rewrite appendParagraphs_paragraphs. cbn [cbind app].
  now destruct (trim _).
Qed.

Lemma appendParagraphs_filter (nodes : list value) :
  forallb (fun n => negb (isNullish n)) nodes = true ->
  forall text,
    appendParagraphs nodes text = appendParagraphs (filter isParagraph nodes) text.
Proof.
  induction nodes as [|node rest IH]; intros Hok text; [reflexivity|].
  simpl in Hok. apply andb_true_iff in Hok as [Hnode Hrest].
  apply negb_true_iff in Hnode.
  cbn [filter]. destruct (isParagraph node) eqn:Hp.
  - cbn [appendParagraphs]. rewrite hasContent_paragraph, Hp by assumption.
    cbn [cbind].
    destruct (get node (js "content")) as [inner|e]; [|reflexivity]. cbn [cbind].
    destruct (iterate inner) as [children|e]; [|reflexivity]. cbn [cbind].
    destruct (appendTexts children text) as [text'|e]; [|reflexivity]. cbn [cbind].
    now apply IH.
  - cbn [appendParagraphs]. rewrite hasContent_paragraph, Hp by assumption.
    cbn [cbind]. now apply IH.
Qed.

(** X3: blocks that are not paragraphs with content (headings, lists,
    empty paragraphs) contribute nothing: a document decodes like the
    document of its paragraphs alone, whether that is a text or a throw. *)
Theorem decode_skips_other_blocks (nodes : list value) :
  forallb (fun n => negb (isNullish n)) nodes = true ->
  extractDescription (Sample.docAround nodes) =
    extractDescription (Sample.docAround (filter isParagraph nodes)).
Proof.
  intros Hok. unfold extractDescription.
  change (truthy (Sample.docAround nodes)) with true.
  change (truthy (Sample.docAround (filter isParagraph nodes))) with true.
  cbn [negb].
  change (hasContent (Sample.docAround nodes) (js "doc")) with (Normal true).
  change (hasContent (Sample.docAround (filter isParagraph nodes)) (js "doc"))
    with (Normal true).
  cbn [cbind].
  change (get (Sample.docAround nodes) (js "content")) with (Normal (VArray nodes)).
  change (get (Sample.docAround (filter isParagraph nodes)) (js "content"))
    with (Normal (VArray (filter isParagraph nodes))).
  cbn [cbind iterate]. now rewrite appendParagraphs_filter.
Qed.

Lemma decode_skips_other_blocks_witness :
  extractDescription
    (Sample.docAround [ Sample.heading; Sample.paragraphOf [ js "Open the page" ] ]) =
  extractDescription (Sample.docAround [ Sample.paragraphOf [ js "Open the page" ] ]).
Proof.
  apply (decode_skips_other_blocks
           [ Sample.heading; Sample.paragraphOf [ js "Open the page" ] ]).
  reflexivity.
Defined.

(* ------------------------------------------------------------------ *)
(** ** More on the mutating tools *)

Section MutationProperties.

Variable toLowerCase : jsstring -> jsstring.
Variable jiraConfig : jiraConfigT.
Variable World : Type.
Variable remote : forall X, request X -> World -> completion X * World.

Lemma run_try_rejected X A (r : request X) (h : exn -> prog X) (k : X -> prog A)
    (w w' : World) (e e' : exn) :
  remote r w = (Abrupt e, w') ->
  h e = Throw e' ->
  run remote (pbind (tryCatch (makeJiraRequest r) h) k) w = ([Sent r], Abrupt e', w').
Proof. intros H Hh. simpl. rewrite H. simpl. now rewrite Hh. Qed.

(** X4: when the project read is rejected, for whatever reason,
    [createIssue] throws "Project P not found or not accessible" in
    place of the rejection, and nothing else is requested. *)
Theorem create_issue_project_not_found
    (args : CreateArgs.t) (w0 w1 : World) (e : exn) :
  remote (GetProject (CreateArgs.project args)) w0 = (Abrupt e, w1) ->
  run remote (createIssue toLowerCase jiraConfig args) w0 =
    ([ Sent (GetProject (CreateArgs.project args)) ],
     Abrupt (Error (js "Project " ++ CreateArgs.project args ++
                    js " not found or not accessible")),
     w1).
Proof.
  intros Hproject. unfold createIssue.
  now erewrite run_try_rejected by (exact Hproject || reflexivity).
Qed.

(** X5: when the metadata read is rejected, the rejection itself is
    thrown, unchanged; when it answers with no project, [createIssue]
    throws "Unable to get metadata for project P".  Either way nothing
    is posted. *)
Theorem create_issue_without_metadata
    (args : CreateArgs.t) (w0 w1 w2 : World) (answer : completion (list projectMeta)) :
  remote (GetProject (CreateArgs.project args)) w0 = (Normal tt, w1) ->
  remote (GetCreateMeta (CreateArgs.project args)) w1 = (answer, w2) ->
  (forall e, answer = Abrupt e ->
     run remote (createIssue toLowerCase jiraConfig args) w0 =
       ([ Sent (GetProject (CreateArgs.project args));
          Sent (GetCreateMeta (CreateArgs.project args)) ],
        Abrupt e, w2))
  /\ (answer = Normal [] ->
      run remote (createIssue toLowerCase jiraConfig args) w0 =
        ([ Sent (GetProject (CreateArgs.project args));
           Sent (GetCreateMeta (CreateArgs.project args)) ],
         Abrupt (Error (js "Unable to get metadata for project " ++
                        CreateArgs.project args)),
         w2)).
Proof.
  intros Hproject Hmeta. split.
  - intros e ->. unfold createIssue.
    erewrite run_try_await by exact Hproject.
    now rewrite run_await, Hmeta.
  - intros ->. unfold createIssue.
    erewrite run_try_await by exact Hproject.
    now rewrite run_await, Hmeta.
Qed.

(** X6: when the resolved type declares a priority field, the first
    allowed value whose name matches the requested priority with case
    ignored gives the payload its [priority], by id. *)
Theorem create_issue_priority_resolved
    (args : CreateArgs.t) (issueTypeObj : issueTypeMeta)
    (priorityField : priorityField)
    (before rest : list priorityValue) (chosen : priorityValue) :
  fieldsPriority issueTypeObj = Some priorityField ->
  allowedValues priorityField = Some (before ++ chosen :: rest) ->
  Forall (fun p => toLowerCase (priorityName p) <>
                   toLowerCase (requestedPriority args)) before ->
  toLowerCase (priorityName chosen) = toLowerCase (requestedPriority args) ->
  requestedPriority args <> [] ->
  lookup (js "priority") (issueFields toLowerCase args issueTypeObj) =
    Some (VObject [ (js "id", priorityId chosen) ]).
Proof.
  intros Hfield Hallowed Hbefore Hchosen Hgiven.
  unfold issueFields, createFields. rewrite Hfield, Hallowed. cbn [orDefault].
  rewrite find_first;
    [| apply no_match; exact Hbefore | now apply eqb_eq ].
  destruct (requestedPriority args) as [|c p] eqn:E; [contradiction|].
  cbn [truthy].
  destruct (truthy (VString (orDefault (CreateArgs.description args) []))),
    (truthy (optString (CreateArgs.assignee args))),
    (truthy (CreateArgs.labels args) && isArray (CreateArgs.labels args));
    lookup_fields; reflexivity.
Qed.

(** X7: the payload carries [labels] exactly when the argument is an
    array, empty or not, and then verbatim; any other value given as
    labels is left out without an error. *)
Theorem create_issue_labels (args : CreateArgs.t) (issueTypeObj : issueTypeMeta) :
  lookup (js "labels") (issueFields toLowerCase args issueTypeObj) =
    if isArray (CreateArgs.labels args) then Some (CreateArgs.labels args) else None.
Proof.
  unfold issueFields, createFields.
  assert (Harray : truthy (CreateArgs.labels args) && isArray (CreateArgs.labels args)
                   = isArray (CreateArgs.labels args))
    by (destruct (CreateArgs.labels args); simpl; rewrite ?andb_false_r; reflexivity).
  rewrite Harray.
  destruct (isArray (CreateArgs.labels args));
    destruct (truthy (VString (orDefault (CreateArgs.description args) []))),
      (truthy (optString (CreateArgs.assignee args))),
      (fieldsPriority issueTypeObj) as [pf|];
    try destruct (truthy (VString (requestedPriority args)));
    try destruct (find _ _);
    lookup_fields; reflexivity.
Qed.

(** X8: whatever else is supplied, the payload names the project by
    key, the summary and the resolved type by id, and its keys are
    among the seven the handler knows. *)
Theorem create_issue_required_fields (args : CreateArgs.t) (issueTypeObj : issueTypeMeta) :
  lookup (js "project") (issueFields toLowerCase args issueTypeObj) =
    Some (VObject [ (js "key", VString (CreateArgs.project args)) ])
  /\ lookup (js "summary") (issueFields toLowerCase args issueTypeObj) =
     Some (VString (CreateArgs.summary args))
  /\ lookup (js "issuetype") (issueFields toLowerCase args issueTypeObj) =
     Some (VObject [ (js "id", typeId issueTypeObj) ])
  /\ forall k, In k (keys (issueFields toLowerCase args issueTypeObj)) ->
       In k [ js "project"; js "summary"; js "issuetype"; js "description";
              js "priority"; js "assignee"; js "labels" ].
Proof.
  unfold issueFields, createFields.
  destruct (truthy (VString (orDefault (CreateArgs.description args) []))),
    (truthy (optString (CreateArgs.assignee args))),
    (truthy (CreateArgs.labels args) && isArray (CreateArgs.labels args)),
    (fieldsPriority issueTypeObj) as [pf|];
    try destruct (truthy (VString (requestedPriority args)));
    try destruct (find _ _);
    (repeat split; [lookup_fields; reflexivity ..|]);
    intros k Hk;
    repeat (apply keys_assign_in in Hk; destruct Hk as [->|Hk]; [simpl; tauto|]);
    simpl in Hk |- *; tauto.
Qed.

(** X22: the payload carries [description] exactly when the text is
    not empty, as the document around it, and [assignee] exactly when
    the address is not empty, under [emailAddress]. *)
Theorem create_issue_optional_texts (args : CreateArgs.t) (issueTypeObj : issueTypeMeta) :
  lookup (js "description") (issueFields toLowerCase args issueTypeObj) =
    match orDefault (CreateArgs.description args) [] with
    | [] => None
    | text => Some (adfDocument text)
    end
  /\ lookup (js "assignee") (issueFields toLowerCase args issueTypeObj) =
     match orDefault (CreateArgs.assignee args) [] with
     | [] => None
     | address => Some (VObject [ (js "emailAddress", VString address) ])
     end.
Proof.
  split.
  { unfold issueFields. rewrite createFields_description.
    now destruct (orDefault (CreateArgs.description args) []). }
  unfold issueFields, createFields.
  destruct (truthy (VString (orDefault (CreateArgs.description args) []))),
    (truthy (CreateArgs.labels args) && isArray (CreateArgs.labels args)),
    (fieldsPriority issueTypeObj) as [pf|];
    try destruct (truthy (VString (requestedPriority args)));
    try destruct (find _ _);
    destruct (CreateArgs.assignee args) as [[|c s]|];
    cbn [optString truthy orDefault]; lookup_fields; reflexivity.
Qed.



(** X10: on every run, [transitionIssue] sends the read and then at
    most one post; what it posts is the id of a transition it has just
    fetched, whose destination matches the requested status with case
    ignored. *)
Theorem transition_issue_posts_only_fetched (args : TransitionArgs.t) (w : World) :
  fst (fst (run remote (transitionIssue toLowerCase jiraConfig args) w)) =
    [ Sent (GetTransitions (TransitionArgs.issueKey args)) ]
  \/ exists transitions t,
       fst (remote (GetTransitions (TransitionArgs.issueKey args)) w) =
         Normal transitions
       /\ In t transitions
       /\ toLowerCase (toName t) = toLowerCase (TransitionArgs.status args)
       /\ fst (fst (run remote (transitionIssue toLowerCase jiraConfig args) w)) =
            [ Sent (GetTransitions (TransitionArgs.issueKey args));
              Sent (PostTransition (TransitionArgs.issueKey args)
                      (VObject [ (js "transition",
                                   VObject [ (js "id", transitionId t) ]) ])) ].
Proof.
  unfold transitionIssue. rewrite run_await.
  destruct (remote (GetTransitions (TransitionArgs.issueKey args)) w)
    as [[transitions|e] w1]; [|left; reflexivity].
  destruct (find _ transitions) as [t|] eqn:Hfind; [|left; reflexivity].
  right. exists transitions, t. apply find_some in Hfind as [Hin Hmatch].
  repeat split; [assumption | now apply eqb_eq | now rewrite run_await_last].
Qed.

(** X11: an optional text given as the empty string counts as not
    given.  With every text absent or empty, [updateIssue] sends nothing
    when [labels] is not an array, and sends one patch holding [labels]
    alone when it is one, the empty array included. *)
Theorem update_issue_blank_fields (args : UpdateArgs.t) (w : World) :
  orDefault (UpdateArgs.summary args) [] = [] ->
  orDefault (UpdateArgs.description args) [] = [] ->
  orDefault (UpdateArgs.assignee args) [] = [] ->
  orDefault (UpdateArgs.priority args) [] = [] ->
  (isArray (UpdateArgs.labels args) = false ->
     run remote (updateIssue jiraConfig args) w =
       ([], Normal (textResult (updatedText jiraConfig (UpdateArgs.issueKey args))), w))
  /\ (isArray (UpdateArgs.labels args) = true ->
      fst (fst (run remote (updateIssue jiraConfig args) w)) =
        [ Sent (PutIssue (UpdateArgs.issueKey args)
                  (VObject [ (js "fields",
                               VObject [ (js "labels", UpdateArgs.labels args) ]) ])) ]).
Proof.
  destruct args as [issueKey summary description assignee priority labels].
  cbn [UpdateArgs.summary UpdateArgs.description UpdateArgs.assignee
       UpdateArgs.priority UpdateArgs.labels UpdateArgs.issueKey].
  intros Hs Hd Ha Hp.
  assert (Hfields :
    updateFields
      {| UpdateArgs.issueKey := issueKey; UpdateArgs.summary := summary;
         UpdateArgs.description := description; UpdateArgs.assignee := assignee;
         UpdateArgs.priority := priority; UpdateArgs.labels := labels |} =
    if isArray labels then [ (js "labels", labels) ] else []).
  { unfold updateFields.
    cbn [UpdateArgs.summary UpdateArgs.description UpdateArgs.assignee
         UpdateArgs.priority UpdateArgs.labels].
    destruct summary as [[|]|], description as [[|]|], assignee as [[|]|],
      priority as [[|]|]; try discriminate;
      destruct labels; cbn [optString truthy isArray andb];
      rewrite ?andb_false_r; reflexivity. }
  split; intros Hl; unfold updateIssue; rewrite Hfields, Hl;
    cbn [UpdateArgs.issueKey keys map List.length Nat.ltb Nat.leb].
  - reflexivity.
  - now rewrite run_await_last.
Qed.

End MutationProperties.

Lemma create_issue_project_not_found_witness :
  run Sample.offline (createIssue Demo.lowerAscii Demo.config Scenario.bugArgs) tt =
    ([ Sent (GetProject (js "PROJ")) ],
     Abrupt (Error (js "Project PROJ not found or not accessible")),
     tt).
Proof.
  apply (@create_issue_project_not_found Demo.lowerAscii Demo.config unit
           Sample.offline Scenario.bugArgs tt tt
           (RequestFailed (js "Network Error"))).
  reflexivity.
Defined.

Lemma create_issue_without_metadata_witness :
  run Sample.bare (createIssue Demo.lowerAscii Demo.config Scenario.bugArgs) tt =
    ([ Sent (GetProject (js "PROJ")); Sent (GetCreateMeta (js "PROJ")) ],
     Abrupt (Error (js "Unable to get metadata for project PROJ")),
     tt).
Proof.
  apply (@create_issue_without_metadata Demo.lowerAscii Demo.config unit
           Sample.bare Scenario.bugArgs tt tt tt (Normal []));
    reflexivity.
Defined.

Lemma create_issue_priority_resolved_witness :
  lookup (js "priority") (issueFields Demo.lowerAscii Sample.storyArgs Demo.task) =
    Some (VObject [ (js "id", VString (js "3")) ]).
Proof.
  apply (@create_issue_priority_resolved Demo.lowerAscii Sample.storyArgs Demo.task
           {| allowedValues :=
                Some [ {| priorityName := js "High"; priorityId := VString (js "2") |};
                       {| priorityName := js "Medium"; priorityId := VString (js "3") |} ] |}
           [ {| priorityName := js "High"; priorityId := VString (js "2") |} ]
           []
           {| priorityName := js "Medium"; priorityId := VString (js "3") |});
    try reflexivity.
  - repeat constructor; discriminate.
  - discriminate.
Defined.

Lemma update_issue_blank_fields_witness :
  run Demo.tracker (updateIssue Demo.config Sample.blankArgs) 0 =
    ([], Normal (textResult (updatedText Demo.config (js "PROJ-7"))), 0).
Proof.
  apply (@update_issue_blank_fields Demo.config nat Demo.tracker Sample.blankArgs 0);
    reflexivity.
Defined.

(* ------------------------------------------------------------------ *)
(** ** What comes back from a document written by the server *)

Lemma trimStart_line_feed (s : jsstring) :
  trimStart (s ++ nl) = match trimStart s with
                        | [] => []
                        | kept => kept ++ nl
                        end.
Proof.
  induction s as [|c s IH]; [reflexivity|].
  simpl. destruct (isWhiteSpace c); [exact IH | reflexivity].
Qed.

Lemma trim_line_feed (s : jsstring) : trim (s ++ nl) = trim s.
Proof.
  unfold trim. rewrite trimStart_line_feed.
  destruct (trimStart s) as [|c kept]; [reflexivity|].
  apply trimEnd_line_feed.
Qed.

(** X12: for every text, the empty one included, the document that the
    server writes around it reads back as the text trimmed at both
    ends, or as the fallback when nothing but white space was written. *)
Theorem decode_encode_trims (text : jsstring) :
  extractDescription (adfDocument text) =
    Normal match trim text with
           | [] => noDescription
           | trimmed => trimmed
           end.
Proof.
  rewrite extract_adfDocument, trim_line_feed. now destruct (trim text).
Qed.

(* ------------------------------------------------------------------ *)
(** ** The reading tools, comments and the dispatcher *)

Section ToolProperties.

Variable toLowerCase : jsstring -> jsstring.
Variable jiraConfig : jiraConfigT.
Variable mcpErrorMessage : errorCode -> jsstring -> jsstring.
Variable foreignErrorText : exn -> jsstring.
Variable World : Type.
Variable remote : forall X, call X -> World -> completion X * World.

Lemma runTask_await X A (c : call X) (k : X -> task A) (w : World) :
  runTask remote (tbind (awaitCall c) k) w =
    match remote c w with
    | (Normal x, w') => afterCall (Placed c) (runTask remote (k x) w')
    | (Abrupt e, w') => ([Placed c], Abrupt e, w')
    end.
Proof.
  simpl. destruct (remote c w) as [[x|e] w']; simpl; [|reflexivity].
  unfold afterCall. now destruct (runTask remote (k x) w') as [[calls outcome] w''].
Qed.

Lemma runTask_lift A (p : prog A) (w : World) :
  runTask remote (lift p) w =
    (map coreCall (fst (fst (run (coreOf remote) p w))),
     snd (fst (run (coreOf remote) p w)),
     snd (run (coreOf remote) p w)).
Proof.
  revert w. induction p as [a|e|X r k IH]; intros w; [reflexivity..|].
  simpl. unfold coreOf at 1 3 5. destruct (remote (Core r) w) as [x w'].
  rewrite IH.
  now destruct (run (coreOf remote) (k x) w') as [[calls outcome] w''].
Qed.

Lemma runTask_guarded A (name : jsstring) (t : task A) (w : World) :
  runTask remote (guarded foreignErrorText name t) w =
    (fst (fst (runTask remote t w)),
     Normal match snd (fst (runTask remote t w)) with
            | Normal a => inr a
            | Abrupt e => inl (internalError name (errorText foreignErrorText e))
            end,
     snd (runTask remote t w)).
Proof.
  revert w. induction t as [a|e|X c k IH]; intros w; [reflexivity..|].
  simpl. destruct (remote c w) as [x w']. rewrite IH.
  now destruct (runTask remote (k x) w') as [[calls outcome] w''].
Qed.

Lemma toolNamed_toolName (t : tool) : toolNamed (toolName t) = Some t.
Proof. now destruct t. Qed.

Lemma toolNamed_unknown (name : jsstring) :
  ~ In name (map toolName tools) -> toolNamed name = None.
Proof.
  intros Hnot. unfold toolNamed. apply find_none.
  apply Forall_forall. intros t _. apply eqb_neq. intros ->.
  apply Hnot. apply in_map. destruct t; simpl; tauto.
Qed.

(** X13: the reading tools never send a write and send at most one
    request.  [getIssue], [getProjectInfo] and [getTransitions] send
    exactly one GET, whatever comes back; [searchIssues] and
    [getProjectIssues] send one GET with the query URI-encoded, and
    nothing at all when the query holds a surrogate on its own, on which
    [encodeURIComponent] throws. *)
Theorem reading_tools_read_only :
  (forall (args : SearchArgs.t) (w : World),
     fst (fst (runTask remote (handlerOf toLowerCase jiraConfig JiraSearch args) w)) =
       match encodeURIComponent (SearchArgs.jql args) with
       | Normal query =>
           [ Placed (Core (GetSearch query
                             (orDefault (SearchArgs.maxResults args) 50%Z))) ]
       | Abrupt _ => []
       end)
  /\ (forall (args : ProjectIssuesArgs.t) (w : World),
        fst (fst (runTask remote
                    (handlerOf toLowerCase jiraConfig JiraGetProjectIssues args) w)) =
          match encodeURIComponent
                  (projectJql (ProjectIssuesArgs.projectKey args)
                     (ProjectIssuesArgs.status args)) with
          | Normal query =>
              [ Placed (Core (GetSearch query
                                (orDefault (ProjectIssuesArgs.maxResults args) 50%Z))) ]
          | Abrupt _ => []
          end)
  /\ (forall (args : IssueArgs.t) (w : World),
        fst (fst (runTask remote
                    (handlerOf toLowerCase jiraConfig JiraGetIssue args) w)) =
          [ Placed (GetIssue (IssueArgs.issueKey args)) ])
  /\ (forall (args : ProjectArgs.t) (w : World),
        fst (fst (runTask remote
                    (handlerOf toLowerCase jiraConfig JiraGetProjectInfo args) w)) =
          [ Placed (GetProjectRecord (ProjectArgs.projectKey args)) ])
  /\ (forall (args : IssueArgs.t) (w : World),
        fst (fst (runTask remote
                    (handlerOf toLowerCase jiraConfig JiraGetTransitions args) w)) =
          [ Placed (Core (GetTransitions (IssueArgs.issueKey args))) ])
  /\ (forall (t : tool) (args : argsOf t) (w : World),
        In t [ JiraSearch; JiraGetIssue; JiraGetProjectInfo; JiraGetProjectIssues;
               JiraGetTransitions ] ->
        existsb isWriteCall
          (fst (fst (runTask remote (handlerOf toLowerCase jiraConfig t args) w)))
        = false).
Proof.
  assert (Hsearch : forall (args : SearchArgs.t) (w : World),
    fst (fst (runTask remote (lift (searchIssues jiraConfig args)) w)) =
      match encodeURIComponent (SearchArgs.jql args) with
      | Normal query =>
          [ Placed (Core (GetSearch query
                            (orDefault (SearchArgs.maxResults args) 50%Z))) ]
      | Abrupt _ => []
      end).
  { intros args w. rewrite runTask_lift. cbn [fst].
    destruct (run_searchIssues jiraConfig (coreOf remote) args w) as [-> _].
    now destruct (encodeURIComponent (SearchArgs.jql args)). }
  assert (Hissue : forall (args : IssueArgs.t) (w : World),
    fst (fst (runTask remote (getIssue jiraConfig args) w)) =
      [ Placed (GetIssue (IssueArgs.issueKey args)) ]).
  { intros args w. unfold getIssue. rewrite runTask_await.
    destruct (remote (GetIssue (IssueArgs.issueKey args)) w) as [[issue|e] w'];
      [|reflexivity].
    now destruct (extractDescription (detailDescription issue)). }
  assert (Hinfo : forall (args : ProjectArgs.t) (w : World),
    fst (fst (runTask remote (getProjectInfo jiraConfig args) w)) =
      [ Placed (GetProjectRecord (ProjectArgs.projectKey args)) ]).
  { intros args w. unfold getProjectInfo. rewrite runTask_await.
    now destruct (remote (GetProjectRecord (ProjectArgs.projectKey args)) w)
      as [[project|e] w']. }
  assert (Hlist : forall (args : IssueArgs.t) (w : World),
    fst (fst (runTask remote (lift (getTransitions jiraConfig args)) w)) =
      [ Placed (Core (GetTransitions (IssueArgs.issueKey args))) ]).
  { intros args w. rewrite runTask_lift. unfold getTransitions.
    now rewrite run_await_last. }
  split; [exact Hsearch|]. split; [intros args w; apply Hsearch|].
  split; [exact Hissue|]. split; [exact Hinfo|]. split; [exact Hlist|].
  intros t args w Ht.
  destruct t; simpl in Ht;
    try (exfalso; decompose [or] Ht; discriminate || assumption);
    cbn [handlerOf].
  - rewrite Hsearch. now destruct (encodeURIComponent _).
  - now rewrite Hissue.
  - now rewrite Hinfo.
  - unfold getProjectIssues. rewrite Hsearch. now destruct (encodeURIComponent _).
  - now rewrite Hlist.
Qed.

(** X14: once the issue is fetched, [getIssue] returns the text written
    out here, with the line "**Description**: No description", for a
    description that is [null], absent or empty; and it fails as a
    whole, with what [extractDescription] threw and without any text,
    when the description makes the reader throw. *)
Theorem get_issue_description
    (args : IssueArgs.t) (w0 w1 : World) (issue : issueDetail) :
  remote (GetIssue (IssueArgs.issueKey args)) w0 = (Normal issue, w1) ->
  (truthy (detailDescription issue) = false ->
     runTask remote (getIssue jiraConfig args) w0 =
       ([ Placed (GetIssue (IssueArgs.issueKey args)) ],
        Normal
          (VObject
             [ (js "content",
                 VArray
                   [ VObject
                       [ (js "type", VString (js "text"));
                         (js "text",
                           VString
                             (js "**" ++ detailKey issue ++ js "**: " ++
                              detailSummary issue ++ nl ++ nl ++
                              js "**Description**: No description" ++ nl ++
                              js "**Status**: " ++ detailStatus issue ++ nl ++
                              js "**Assignee**: " ++
                              orElse (detailAssignee issue) (js "Unassigned") ++ nl ++
                              js "**Priority**: " ++
                              orElse (detailPriority issue) (js "None") ++ nl ++
                              js "**Type**: " ++ detailType issue ++ nl ++
                              js "**Labels**: " ++
                              orElse (Some (join (js ", ")
                                              (orDefault (detailLabels issue) [])))
                                (js "None") ++ nl ++
                              js "**Created**: " ++ detailCreated issue ++ nl ++
                              js "**Updated**: " ++ detailUpdated issue ++ nl ++
                              js "**URL**: " ++
                              (url jiraConfig ++ js "/browse/" ++
                               detailKey issue))) ] ]) ]),
        w1))
  /\ (forall e, extractDescription (detailDescription issue) = Abrupt e ->
        runTask remote (getIssue jiraConfig args) w0 =
          ([ Placed (GetIssue (IssueArgs.issueKey args)) ], Abrupt e, w1)).
Proof.
  intros Hget. split.
  - intros Hfalsy. unfold getIssue. rewrite runTask_await, Hget.
    unfold extractDescription. rewrite Hfalsy. cbn [negb attempt tbind afterCall runTask].
    unfold textResult, issueDetailText, labelsText, noDescription.
    reflexivity.
  - intros e He. unfold getIssue. rewrite runTask_await, Hget. now rewrite He.
Qed.

(** X15: [addComment] posts once, whatever the comment, the empty one
    included; the body is the document around the comment as given,
    which reads back as the comment trimmed at both ends (the fallback
    for a blank one); the outcome is that of the post. *)
Theorem add_comment_posts_verbatim (args : CommentArgs.t) (w : World) :
  runTask remote (addComment jiraConfig args) w =
    ([ Placed (PostComment (CommentArgs.issueKey args)
                 (VObject [ (js "body", adfDocument (CommentArgs.comment args)) ])) ],
     settle
       (fst (remote (PostComment (CommentArgs.issueKey args)
                       (VObject [ (js "body",
                                    adfDocument (CommentArgs.comment args)) ])) w))
       (fun _ => textResult (commentedText jiraConfig (CommentArgs.issueKey args)
                               (CommentArgs.comment args))),
     snd (remote (PostComment (CommentArgs.issueKey args)
                    (VObject [ (js "body",
                                 adfDocument (CommentArgs.comment args)) ])) w))
  /\ extractDescription (adfDocument (CommentArgs.comment args)) =
       Normal match trim (CommentArgs.comment args) with
              | [] => noDescription
              | trimmed => trimmed
              end.
Proof.
  split.
  - unfold addComment. rewrite runTask_await.
    now destruct (remote _ w) as [[[]|e] w'].
  - rewrite extract_adfDocument, trim_line_feed. now destruct (trim _).
Qed.

(** X16: a name that is none of the nine tools sends nothing, and the
    caller gets an internal error around the message of the
    method-not-found error: that error is thrown inside the [try] and
    caught by its [catch]. *)
Theorem call_tool_unknown_name
    (name : jsstring) (args : forall t, argsOf t) (w : World) :
  ~ In name (map toolName tools) ->
  runTask remote
    (callTool toLowerCase jiraConfig mcpErrorMessage foreignErrorText name args) w =
    ([],
     Normal (inl (McpError InternalError
                    (js "Error executing " ++ name ++ js ": " ++
                     mcpErrorMessage MethodNotFound (js "Unknown tool: " ++ name)))),
     w).
Proof.
  intros Hnot. unfold callTool. now rewrite toolNamed_unknown.
Qed.

Lemma callTool_known (t : tool) (args : forall t, argsOf t) (w : World) :
  runTask remote
    (callTool toLowerCase jiraConfig mcpErrorMessage foreignErrorText
       (toolName t) args) w =
    (fst (fst (runTask remote (handlerOf toLowerCase jiraConfig t (args t)) w)),
     Normal match snd (fst (runTask remote
                              (handlerOf toLowerCase jiraConfig t (args t)) w)) with
            | Normal v => inr v
            | Abrupt e =>
                inl (internalError (toolName t) (errorText foreignErrorText e))
            end,
     snd (runTask remote (handlerOf toLowerCase jiraConfig t (args t)) w)).
Proof.
  unfold callTool. rewrite toolNamed_toolName. apply runTask_guarded.
Qed.

(** X17: under one of its nine names, a tool call sends exactly the
    requests of its handler and leaves the tracker as the handler does;
    a result is returned as it is, and anything thrown becomes an
    internal error "Error executing NAME: " followed by the text of what
    was thrown. *)
Theorem call_tool_runs_handler (t : tool) (args : forall t, argsOf t) (w : World) :
  runTask remote
    (callTool toLowerCase jiraConfig mcpErrorMessage foreignErrorText
       (toolName t) args) w =
    (fst (fst (runTask remote (handlerOf toLowerCase jiraConfig t (args t)) w)),
     Normal match snd (fst (runTask remote
                              (handlerOf toLowerCase jiraConfig t (args t)) w)) with
            | Normal v => inr v
            | Abrupt e =>
                inl (McpError InternalError
                       (js "Error executing " ++ toolName t ++ js ": " ++
                        errorText foreignErrorText e))
            end,
     snd (runTask remote (handlerOf toLowerCase jiraConfig t (args t)) w)).
Proof. apply callTool_known. Qed.

(** X18: a tool call never ends in an uncaught throw, and the only
    error code a caller ever sees is the internal one, its text opening
    with "Error executing NAME: "; the method-not-found code never
    leaves the dispatcher. *)
Theorem call_tool_only_internal_errors
    (name : jsstring) (args : forall t, argsOf t) (w : World) :
  exists outcome,
    snd (fst (runTask remote
                (callTool toLowerCase jiraConfig mcpErrorMessage foreignErrorText
                   name args) w)) = Normal outcome
    /\ forall error, outcome = inl error ->
         code error = InternalError
         /\ exists detail,
              reason error = js "Error executing " ++ name ++ js ": " ++ detail.
Proof.
  unfold callTool. destruct (toolNamed name) as [t|].
  - rewrite runTask_guarded. cbn [fst snd]. eexists. split; [reflexivity|].
    intros error Herror.
    destruct (snd (fst (runTask remote _ w))) as [v|e]; [discriminate|].
    injection Herror as <-. split; [reflexivity|]. now eexists.
  - eexists. split; [reflexivity|]. intros error Herror. injection Herror as <-.
    split; [reflexivity|]. now eexists.
Qed.

(** X19: through the dispatcher, an unknown issue type reaches the
    caller as an internal error whose text is "Error executing
    jira_create_issue: " followed by the handler's own message, with the
    requested name and every fetched type name; nothing is posted. *)
Theorem call_tool_unknown_issue_type
    (args : forall t, argsOf t) (w0 w1 w2 : World)
    (meta : projectMeta) (others : list projectMeta) :
  remote (Core (GetProject (CreateArgs.project (args JiraCreateIssue)))) w0 =
    (Normal tt, w1) ->
  remote (Core (GetCreateMeta (CreateArgs.project (args JiraCreateIssue)))) w1 =
    (Normal (meta :: others), w2) ->
  Forall (fun t => toLowerCase (typeName t) <>
                   toLowerCase (requestedType (args JiraCreateIssue)))
    (issuetypes meta) ->
  runTask remote
    (callTool toLowerCase jiraConfig mcpErrorMessage foreignErrorText
       (js "jira_create_issue") args) w0 =
    ([ Placed (Core (GetProject (CreateArgs.project (args JiraCreateIssue))));
       Placed (Core (GetCreateMeta (CreateArgs.project (args JiraCreateIssue)))) ],
     Normal (inl (McpError InternalError
                    (js "Error executing jira_create_issue: " ++
                     (js "Issue type " ++ dquote ++
                      requestedType (args JiraCreateIssue) ++ dquote ++
                      js " not found. Available types: " ++
                      join (js ", ") (map typeName (issuetypes meta)))))),
     w2).
Proof.
  intros Hproject Hmeta Hnone.
  change (js "jira_create_issue") with (toolName JiraCreateIssue) at 1.
  rewrite callTool_known. cbn [handlerOf]. rewrite runTask_lift.
  assert (Hrun :
    run (coreOf remote)
      (createIssue toLowerCase jiraConfig (args JiraCreateIssue)) w0 =
    ([ Sent (GetProject (CreateArgs.project (args JiraCreateIssue)));
       Sent (GetCreateMeta (CreateArgs.project (args JiraCreateIssue))) ],
     Abrupt (Error (js "Issue type " ++ dquote ++
                    requestedType (args JiraCreateIssue) ++ dquote ++
                    js " not found. Available types: " ++
                    join (js ", ") (map typeName (issuetypes meta)))),
     w2)).
  { unfold createIssue.
    erewrite run_try_await by exact Hproject.
    rewrite run_await.
    unfold coreOf at 1. rewrite Hmeta. cbn [nth_error].
    rewrite find_none by (apply no_match; exact Hnone).
    reflexivity. }
  rewrite Hrun. reflexivity.
Qed.

End ToolProperties.

Lemma reading_tools_read_only_witness :
  fst (fst (runTask Sample.tracker
              (handlerOf Demo.lowerAscii Demo.config JiraSearch
                 (Sample.argsFor JiraSearch)) 0)) =
    [ Placed (Core (GetSearch (js "project%20%3D%20PROJ") 50%Z)) ]
  /\ fst (fst (runTask Sample.tracker
                 (handlerOf Demo.lowerAscii Demo.config JiraSearch
                    {| SearchArgs.jql := [ 55357%N ];
                       SearchArgs.maxResults := None |}) 0)) = []
  /\ existsb isWriteCall
       (fst (fst (runTask Sample.tracker
                    (handlerOf Demo.lowerAscii Demo.config JiraGetIssue
                       (Sample.argsFor JiraGetIssue)) 0))) = false.
Proof.
  destruct (reading_tools_read_only Demo.lowerAscii Demo.config Sample.tracker)
    as (Hsearch & _ & _ & _ & _ & Hread).
  split; [|split].
  - rewrite Hsearch. reflexivity.
  - rewrite Hsearch. reflexivity.
  - apply Hread. simpl. tauto.
Defined.

(** One sample issue has no description; the description of the other
    holds a [null] child, and the whole tool fails. *)
Lemma get_issue_description_witness :
  runTask Sample.archive (getIssue Demo.config (Sample.argsFor JiraGetIssue)) 0 =
    ([ Placed (GetIssue (js "PROJ-7")) ],
     Normal
       (VObject
          [ (js "content",
              VArray
                [ VObject
                    [ (js "type", VString (js "text"));
                      (js "text",
                        VString
                          (js "**PROJ-8**: Tidy up" ++ nl ++ nl ++
                           js "**Description**: No description" ++ nl ++
                           js "**Status**: Open" ++ nl ++
                           js "**Assignee**: Unassigned" ++ nl ++
                           js "**Priority**: Low" ++ nl ++
                           js "**Type**: Task" ++ nl ++
                           js "**Labels**: chore, small" ++ nl ++
                           js "**Created**: 2024-02-01" ++ nl ++
                           js "**Updated**: 2024-02-02" ++ nl ++
                           js "**URL**: https://jira.example.com/browse/PROJ-8")) ] ]) ]),
     0)
  /\ runTask Sample.tracker (getIssue Demo.config (Sample.argsFor JiraGetIssue)) 0 =
       ([ Placed (GetIssue (js "PROJ-7")) ], Abrupt TypeError, 0).
Proof.
  split.
  - apply (@get_issue_description Demo.config nat Sample.archive
             (Sample.argsFor JiraGetIssue) 0 0 Sample.issue8);
      reflexivity.
  - apply (@get_issue_description Demo.config nat Sample.tracker
             (Sample.argsFor JiraGetIssue) 0 0 Sample.issue7);
      reflexivity.
Defined.

(** The name of the tool in the earlier server is unknown to this one. *)
Lemma call_tool_unknown_name_witness :
  runTask Sample.tracker
    (callTool Demo.lowerAscii Demo.config Sample.mcpErrorMessage
       Sample.foreignErrorText (js "search_issues") Sample.argsFor) 0 =
    ([],
     Normal (inl (McpError InternalError
                    (js "Error executing search_issues: MCP error -32601: Unknown tool: search_issues"))),
     0).
Proof.
  apply (@call_tool_unknown_name Demo.lowerAscii Demo.config Sample.mcpErrorMessage
           Sample.foreignErrorText nat Sample.tracker (js "search_issues")
           Sample.argsFor 0).
  simpl. intros H. decompose [or] H; discriminate || assumption.
Defined.

Lemma call_tool_unknown_issue_type_witness :
  runTask Sample.tracker
    (callTool Demo.lowerAscii Demo.config Sample.mcpErrorMessage
       Sample.foreignErrorText (js "jira_create_issue") Sample.argsFor) 0 =
    ([ Placed (Core (GetProject (js "PROJ")));
       Placed (Core (GetCreateMeta (js "PROJ"))) ],
     Normal (inl (McpError InternalError
                    (js "Error executing jira_create_issue: Issue type " ++ dquote ++
                     js "Story" ++ dquote ++
                     js " not found. Available types: Task, Bug"))),
     0).
Proof.
  apply (@call_tool_unknown_issue_type Demo.lowerAscii Demo.config
           Sample.mcpErrorMessage Sample.foreignErrorText nat Sample.tracker
           Sample.argsFor 0 0 0 {| issuetypes := Demo.types |} []);
    try reflexivity.
  repeat constructor; discriminate.
Defined.

(* ------------------------------------------------------------------ *)
(** ** The earlier server's update *)

Section LegacyProperties.

Variable jiraConfig : jiraConfigT.
Variable World : Type.
Variable remote : forall X, request X -> World -> completion X * World.

Lemma run_bind A B (p : prog A) (f : A -> prog B) (w : World) :
  run remote (pbind p f) w =
    match run remote p w with
    | (calls, Normal a, w') =>
        let '(calls', outcome, w'') := run remote (f a) w' in
        (calls ++ calls', outcome, w'')
    | (calls, Abrupt e, w') => (calls, Abrupt e, w')
    end.
Proof.
  revert w. induction p as [a|e|X r k IH]; intros w; simpl.
  - now destruct (run remote (f a) w) as [[calls outcome] w'].
  - reflexivity.
  - destruct (remote r w) as [x w']. rewrite IH.
    destruct (run remote (k x) w') as [[calls [a|e]] w'']; [|reflexivity].
    now destruct (run remote (f a) w'') as [[calls' outcome] w'''].
Qed.

Lemma run_request X (r : request X) (w : World) :
  run remote (makeJiraRequest r) w = ([Sent r], fst (remote r w), snd (remote r w)).
Proof. simpl. now destruct (remote r w) as [[x|e] w']. Qed.

(** X20: in the earlier server, a status that is not exactly the
    destination name of a fetched transition (a difference of case is
    enough) is dropped in silence: after the field step and the read of
    the transitions nothing is posted, and the update reports success. *)
Theorem legacy_update_status_unmatched
    (args : Legacy.UpdateArgs.t) (w0 w1 w2 : World)
    (sentFields : list sent) (transitions : list transition) :
  orDefault (Legacy.UpdateArgs.status args) [] <> [] ->
  run remote (Legacy.patch args) w0 = (sentFields, Normal tt, w1) ->
  remote (GetTransitions (Legacy.UpdateArgs.issueKey args)) w1 =
    (Normal transitions, w2) ->
  Forall (fun t => toName t <> orDefault (Legacy.UpdateArgs.status args) [])
    transitions ->
  run remote (Legacy.updateIssue jiraConfig args) w0 =
    (sentFields ++ [ Sent (GetTransitions (Legacy.UpdateArgs.issueKey args)) ],
     Normal (textResult
               (Legacy.updatedText jiraConfig (Legacy.UpdateArgs.issueKey args))),
     w2).
Proof.
  intros Hstatus Hpatch Hget Hnone.
  unfold Legacy.updateIssue. rewrite run_bind, Hpatch.
  destruct (Legacy.UpdateArgs.status args) as [[|c s]|]; try contradiction.
  cbn [optString truthy orDefault] in *.
  rewrite run_bind. unfold Legacy.moveTo. rewrite run_await, Hget.
  rewrite find_none
    by (eapply Forall_impl; [|exact Hnone]; intros t Ht; now apply eqb_neq).
  reflexivity.
Qed.

(** X21: in the earlier server, when the fields were patched and the
    read of the transitions is then rejected, the update fails with that
    rejection although the patch has been sent: the issue stays half
    updated. *)
Theorem legacy_update_half_done
    (args : Legacy.UpdateArgs.t) (w0 w1 w2 : World) (e : exn) :
  Legacy.updateFields args <> [] ->
  orDefault (Legacy.UpdateArgs.status args) [] <> [] ->
  remote (PutIssue (Legacy.UpdateArgs.issueKey args)
            (VObject [ (js "fields", VObject (Legacy.updateFields args)) ])) w0 =
    (Normal tt, w1) ->
  remote (GetTransitions (Legacy.UpdateArgs.issueKey args)) w1 = (Abrupt e, w2) ->
  run remote (Legacy.updateIssue jiraConfig args) w0 =
    ([ Sent (PutIssue (Legacy.UpdateArgs.issueKey args)
               (VObject [ (js "fields", VObject (Legacy.updateFields args)) ]));
       Sent (GetTransitions (Legacy.UpdateArgs.issueKey args)) ],
     Abrupt e, w2).
Proof.
  intros Hfields Hstatus Hput Hget.
  unfold Legacy.updateIssue, Legacy.patch. rewrite run_bind.
  destruct (Legacy.updateFields args) as [|field fields] eqn:E; [contradiction|].
  cbn [keys map List.length Nat.ltb Nat.leb].
  rewrite run_request, Hput. cbn [fst snd].
  destruct (Legacy.UpdateArgs.status args) as [[|c s]|]; try contradiction.
  cbn [optString truthy orDefault] in *.
  rewrite run_bind. unfold Legacy.moveTo. rewrite run_await, Hget.
  reflexivity.
Qed.

End LegacyProperties.

(** The earlier server looks for "done" with the case as given; the
    fetched destinations are "In Progress", "Done" and "DONE". *)
Lemma legacy_update_status_unmatched_witness :
  run Demo.tracker (Legacy.updateIssue Demo.config Sample.statusArgs) 0 =
    ([ Sent (PutIssue (js "PROJ-7")
               (VObject [ (js "fields",
                            VObject [ (js "summary", VString (js "New title")) ]) ]));
       Sent (GetTransitions (js "PROJ-7")) ],
     Normal (textResult (Legacy.updatedText Demo.config (js "PROJ-7"))),
     0).
Proof.
  apply (@legacy_update_status_unmatched Demo.config nat Demo.tracker
           Sample.statusArgs 0 0 0
           [ Sent (PutIssue (js "PROJ-7")
                     (VObject [ (js "fields",
                                  VObject [ (js "summary",
                                              VString (js "New title")) ]) ])) ]
           Demo.transitions);
    try reflexivity.
  - discriminate.
  - repeat constructor; discriminate.
Defined.

Lemma legacy_update_half_done_witness :
  run Sample.bare (Legacy.updateIssue Demo.config Sample.statusArgs) tt =
    ([ Sent (PutIssue (js "PROJ-7")
               (VObject [ (js "fields",
                            VObject [ (js "summary", VString (js "New title")) ]) ]));
       Sent (GetTransitions (js "PROJ-7")) ],
     Abrupt (RequestFailed (js "Network Error")), tt).
Proof.
  apply (@legacy_update_half_done Demo.config unit Sample.bare Sample.statusArgs
           tt tt tt (RequestFailed (js "Network Error")));
    try reflexivity; discriminate.
Defined.
